(** * redux-orm: the Model class ([src/Model.js])

    A shallow embedding of the static and prototype methods of [Model]:
    the per-class session binding, the lazily created [Meta] instance,
    the mutation fold of [getNextState], the synthesis of the
    many-to-many "through" models and the record facade
    ([set]/[update]/[delete]/[equals] and the plain-field accessors
    installed by [_initFields]).

    The modules [Model.js] imports ([./Session], [./Meta], [./fields],
    [./constants], [./utils]) are not part of the file.  Their constants
    and naming helpers are parameters (class [Imports]); the session and
    the branch algebra are modelled from the specification where a
    concrete instance is needed. *)

From Stdlib Require Import ZArith String List Bool Lia.
From stdpp Require Import base option list strings gmap.

Open Scope string_scope.
Open Scope Z_scope.
Open Scope list_scope.

(** ** JavaScript values *)

Module JS.

#[local] Unset Elimination Schemes.

(** The values that flow through [Model.js].  Numbers are restricted to
    integers (ids are integers or strings); [VSession] is the reference
    to the session object of the store, the only host object a value can
    denote.  Arrays and objects are carried by content: the embedding
    does not track their identity. *)
Inductive value : Type :=
| VUndefined
| VNull
| VBool (b : bool)
| VNum (n : Z)
| VStr (s : string)
| VArr (elems : list value)
| VObj (props : list (string * value))
| VSession.
#[local] Set Elimination Schemes.

(** What can be thrown. [Error_] is [new Error(msg)]; the last four are
    the structured errors of the session and the branch algebra. *)
Inductive Error : Type :=
| TypeError
| ReferenceError
| Error_ (msg : string)
| DuplicateIdError
| InvalidMutationError
| SessionClosedError.

Inductive result (A : Type) : Type :=
| Ok (a : A)
| Throw (e : Error).
Arguments Ok {A} a.
Arguments Throw {A} e.

(** [x === y] on values compared by value.  Two arrays or objects are
    equal only when they are the same object, which the embedding does
    not track: they compare as distinct. *)
Definition strict_eq (x y : value) : bool :=
  match x, y with
  | VUndefined, VUndefined => true
  | VNull, VNull => true
  | VBool a, VBool b => Bool.eqb a b
  | VNum a, VNum b => Z.eqb a b
  | VStr a, VStr b => String.eqb a b
  | VSession, VSession => true
  | _, _ => false
  end.

(** Values whose [===] is equality of content. *)
Definition by_value (x : value) : bool :=
  match x with
  | VArr _ | VObj _ => false
  | _ => true
  end.

(** ToBoolean. *)
Definition truthy (x : value) : bool :=
  match x with
  | VUndefined | VNull => false
  | VBool b => b
  | VNum n => negb (Z.eqb n 0)
  | VStr s => negb (String.eqb s "")
  | VArr _ | VObj _ | VSession => true
  end.

(** [!x] *)
Definition js_not (x : value) : value := VBool (negb (truthy x)).

Definition nullish (x : value) : bool :=
  match x with
  | VUndefined | VNull => true
  | _ => false
  end.

(** ** Objects as ordered key/value lists (own properties only) *)

Fixpoint obj_get {A} (o : list (string * A)) (k : string) : option A :=
  match o with
  | [] => None
  | (k', v) :: o' => if String.eqb k' k then Some v else obj_get o' k
  end.

(** [o[k] = v]: an existing key keeps its position. *)
Fixpoint obj_set {A} (o : list (string * A)) (k : string) (v : A)
  : list (string * A) :=
  match o with
  | [] => [(k, v)]
  | (k', v') :: o' =>
      if String.eqb k' k then (k', v) :: o' else (k', v') :: obj_set o' k v
  end.

(** An object literal [{[k1]: v1, [k2]: v2, ...}]: a repeated key is
    overwritten by the later entry. *)
Definition obj_literal {A} (entries : list (string * A)) : list (string * A) :=
  fold_left (fun o kv => obj_set o (fst kv) (snd kv)) entries [].

Definition keys {A} (o : list (string * A)) : list string := map fst o.

(** [Array.prototype.includes] on an array of strings. *)
Definition includes (l : list string) (k : string) : bool :=
  existsb (String.eqb k) l.

(** [o[k]] where [o] is a record object. *)
Definition index (o : list (string * value)) (k : string) : value :=
  match obj_get o k with
  | Some v => v
  | None => VUndefined
  end.

(** [x.k] for a value [x]: a TypeError on [undefined] and [null],
    the own property of an object, [undefined] otherwise. *)
Definition member (x : value) (k : string) : result value :=
  match x with
  | VUndefined | VNull => Throw TypeError
  | VObj o => Ok (index o k)
  | _ => Ok VUndefined
  end.

(** [Array.prototype.reduce] with an initial value and a callback that
    may throw: the first exception ends the loop. *)
Fixpoint reduce {A X} (f : A -> X -> result A) (l : list X) (init : A)
  : result A :=
  match l with
  | [] => Ok init
  | x :: l' =>
      match f init x with
      | Ok acc => reduce f l' acc
      | Throw e => Throw e
      end
  end.

End JS.

Import JS.

(** ** Mutation records

    The object literal [{type, payload, meta: {name}}] appended to the
    session by the facade and read back by [getNextState]. *)
Record Mutation : Type := mkMutation {
  type : value;
  payload : value;
  meta : value
}.

(** ** The branch algebra ([./Meta])

    [Model] delegates to a [Meta] instance: its [name] and [idAttribute]
    and the operations on a branch of type [B].  The operations are pure
    and may throw. *)
Module Meta.

Record t (B : Type) : Type := mk {
  name : string;
  idAttribute : string;
  getDefaultState : B;
  insert : B -> value -> result B;
  update : B -> value -> value -> result B;
  delete : B -> value -> result B
}.
Arguments mk {B}.
Arguments name {B}.
Arguments idAttribute {B}.
Arguments getDefaultState {B}.
Arguments insert {B}.
Arguments update {B}.
Arguments delete {B}.

End Meta.

(** ** The session ([./Session]) *)
Module Session.

Inductive Status : Type := Open | Finalized.

(** Modelled from the spec: the session object ([./Session] is not in
    the sources).  It holds the current branch of every entity, the
    mutation log, the names of the known schemas and whether it is still
    open. *)
Record t (B : Type) : Type := mk {
  state : gmap string B;
  mutations : list Mutation;
  schemas : list string;
  status : Status
}.
Arguments mk {B}.
Arguments state {B}.
Arguments mutations {B}.
Arguments schemas {B}.
Arguments status {B}.

(** Modelled from the spec: the entity a mutation record targets, its
    [meta.name]. *)
Definition targetEntityName (m : Mutation) : value :=
  match meta m with
  | VObj o => index o "name"
  | _ => VUndefined
  end.

Definition known {B} (s : t B) (n : value) : bool :=
  existsb (fun k => strict_eq n (VStr k)) (schemas s).

(** Modelled from the spec: [getState(name)], the current branch of the
    entity or [undefined] ([None]). *)
Definition getState {B} (s : t B) (entityName : string) : option B :=
  state s !! entityName.

(** Modelled from the spec: [addMutation(record)] fails with
    [InvalidMutationError] when the record targets no known schema and
    with [SessionClosedError] when the session is not open; otherwise it
    appends the record to the log. *)
Definition addMutation {B} (s : t B) (m : Mutation) : result (t B) :=
  if negb (known s (targetEntityName m)) then Throw InvalidMutationError
  else match status s with
       | Finalized => Throw SessionClosedError
       | Open => Ok (mk (state s) (mutations s ++ [m]) (schemas s) (status s))
       end.

(** Modelled from the spec: [getMutationsFor(entityName)], the records of
    the log that target the entity, in append order. *)
Definition getMutationsFor {B} (s : t B) (entityName : string) : list Mutation :=
  List.filter (fun m => strict_eq (targetEntityName m) (VStr entityName))
              (mutations s).

End Session.

(** ** Fields ([./fields]) *)

(** The kind of a declared field and, for a relation, the name of the
    related model; ['this'] stands for the declaring model. *)
Inductive Field : Type :=
| Attribute
| ForeignKey (relatedModelName : string)
| ManyToMany (relatedModelName : string).

(** The options object a model class hands to the [Meta] constructor. *)
Record MetaOptions : Type := mkMetaOptions {
  opt_name : string;
  opt_idAttribute : option string
}.

(** ** What [Model.js] imports

    [./constants] (the mutation tags), [./utils] (the naming of through
    models and of their two foreign keys), the constructor of [./Meta]
    and the getter a relational field of [./fields] installs on a
    facade. *)
Class Imports (B : Type) : Type := {
  CREATE : string;
  UPDATE : string;
  DELETE : string;
  m2mName : string -> string -> string;
  m2mToFieldName : string -> string;
  m2mFromFieldName : string -> string;
  newMeta : MetaOptions -> Meta.t B;
  getGetter : Field -> value -> string -> value -> value
}.

(** ** Classes, facades and the store *)

(** A model class: what a subclass declares ([fields], [virtualFields],
    [getMetaOptions], [getMetaClass]) and the two static slots the class
    mutates, [_session] (set by [connect]) and [_meta] (set on the first
    [getMetaInstance]). *)
Record ModelClass (B : Type) : Type := mkClass {
  fields : list (string * Field);
  virtualFields : list (string * Field);
  getMetaOptions : result MetaOptions;
  getMetaClass : MetaOptions -> Meta.t B;
  _session : value;
  _meta : option (Meta.t B)
}.
Arguments mkClass {B}.
Arguments fields {B}.
Arguments virtualFields {B}.
Arguments getMetaOptions {B}.
Arguments getMetaClass {B}.
Arguments _session {B}.
Arguments _meta {B}.

(** [C._session = s] and [C._meta = m] on a class object. *)
Definition withSession {B} (c : ModelClass B) (s : value) : ModelClass B :=
  mkClass (fields c) (virtualFields c) (getMetaOptions c) (getMetaClass c)
          s (_meta c).

Definition withMeta {B} (c : ModelClass B) (m : Meta.t B) : ModelClass B :=
  mkClass (fields c) (virtualFields c) (getMetaOptions c) (getMetaClass c)
          (_session c) (Some m).

(** The accessor pair [Object.defineProperty] installs for one field,
    with what its closures capture.  A plain accessor captures the field
    value, the session, the id attribute and the model name read when the
    facade was built; a relational one is built by the field instance. *)
Inductive Accessor : Type :=
| PlainAccessor (fieldValue : value) (session : value)
                (idAttribute modelName : string)
| FieldAccessor (fieldInstance : Field) (session : value) (propValue : value).

(** A facade: [this.constructor], [this._fieldNames], [this._fields] and
    the accessor properties defined on it.  Field names are taken not to
    shadow the members of the facade itself. *)
Record Instance : Type := mkInstance {
  constructor : nat;
  _fieldNames : list string;
  _fields : list (string * value);
  accessors : list (string * Accessor)
}.

(** The mutable objects: the session, the model classes and the facades,
    the latter two addressed by position. *)
Record Store (B : Type) : Type := mkStore {
  sessionObj : Session.t B;
  classes : list (ModelClass B);
  instances : list Instance
}.
Arguments mkStore {B}.
Arguments sessionObj {B}.
Arguments classes {B}.
Arguments instances {B}.

(** Computations over the store that may throw; the store reached when
    the exception is thrown is kept. *)
Definition M (B A : Type) : Type := Store B -> result A * Store B.

Definition ret {B A} (a : A) : M B A := fun st => (Ok a, st).

Definition throw {B A} (e : Error) : M B A := fun st => (Throw e, st).

Definition bind {B A A'} (m : M B A) (k : A -> M B A') : M B A' :=
  fun st =>
    match m st with
    | (Ok a, st') => k a st'
    | (Throw e, st') => (Throw e, st')
    end.

Definition lift {B A} (r : result A) : M B A := fun st => (r, st).

Declare Scope js_scope.
Delimit Scope js_scope with js.
Notation "'let!' x ':=' m 'in' k" := (bind m (fun x => k))
  (at level 10, x name, m at level 100, k at level 200) : js_scope.
Open Scope js_scope.

Definition loadClass {B} (this : nat) : M B (ModelClass B) :=
  fun st =>
    match classes st !! this with
    | Some c => (Ok c, st)
    | None => (Throw ReferenceError, st)
    end.

Definition storeClass {B} (this : nat) (c : ModelClass B) : M B unit :=
  fun st => (Ok tt, mkStore (sessionObj st) (<[this := c]> (classes st)) (instances st)).

Definition loadInstance {B} (self : nat) : M B Instance :=
  fun st =>
    match instances st !! self with
    | Some i => (Ok i, st)
    | None => (Throw ReferenceError, st)
    end.

Definition allocInstance {B} (i : Instance) : M B nat :=
  fun st => (Ok (length (instances st)),
             mkStore (sessionObj st) (classes st) (instances st ++ [i])).

(** [target.method(args)] where the method is one of the session's: a
    TypeError before the arguments are evaluated when [target] is
    [undefined] or [null], and after when it is not the session. *)
Definition invoke {B X A} (target : value) (args : M B X)
  (method : X -> M B A) : M B A :=
  if nullish target then throw TypeError
  else let! x := args in
       match target with
       | VSession => method x
       | _ => throw TypeError
       end.

Definition Session_addMutation {B} (m : Mutation) : M B unit :=
  fun st =>
    match Session.addMutation (sessionObj st) m with
    | Ok s' => (Ok tt, mkStore s' (classes st) (instances st))
    | Throw e => (Throw e, st)
    end.

Definition Session_getState {B} (entityName : string) : M B (option B) :=
  fun st => (Ok (Session.getState (sessionObj st) entityName), st).

Definition Session_getMutationsFor {B} (entityName : string)
  : M B (list Mutation) :=
  fun st => (Ok (Session.getMutationsFor (sessionObj st) entityName), st).

(** ** The class [Model] *)
Module Model.
Section Methods.
Context {B : Type} `{!Imports B}.

(** [static get session()] *)
Definition session (this : nat) : M B value :=
  let! c := loadClass this in ret (_session c).

(** [x instanceof Session] *)
Definition instanceof_Session (x : value) : bool :=
  match x with
  | VSession => true
  | _ => false
  end.

(** [static connect(session)].  The guard is [!session instanceof
    Session], which JavaScript reads as [(!session) instanceof Session]. *)
Definition connect (this : nat) (session : value) : M B unit :=
  if instanceof_Session (js_not session)
  then throw (Error_ "A model can only connect to a Session instance.")
  else let! c := loadClass this in
       storeClass this (withSession c session).

(** [static getMetaInstance()]: the [Meta] instance is built from the
    options on the first call and cached in [_meta]. *)
Definition getMetaInstance (this : nat) : M B (Meta.t B) :=
  let! c := loadClass this in
  match _meta c with
  | Some m => ret m
  | None =>
      let MetaClass := getMetaClass c in
      let! options := lift (getMetaOptions c) in
      let m := MetaClass options in
      let! _ := storeClass this (withMeta c m) in
      ret m
  end.

(** [static getName()] *)
Definition getName (this : nat) : M B string :=
  let! m := getMetaInstance this in ret (Meta.name m).

(** [static get idAttribute()] *)
Definition idAttribute (this : nat) : M B string :=
  let! m := getMetaInstance this in ret (Meta.idAttribute m).

(** [static get state()]: [this.session.getState(this.getName())] *)
Definition state (this : nat) : M B (option B) :=
  let! s := session this in
  invoke s (getName this) Session_getState.

(** [static getDefaultState()] *)
Definition getDefaultState (this : nat) : M B B :=
  let! m := getMetaInstance this in ret (Meta.getDefaultState m).

(** The callback of the [reduce] in [getNextState]: a [switch] on
    [action.type]. *)
Definition reducer (meta : Meta.t B) (state : B) (action : Mutation)
  : result B :=
  if strict_eq (type action) (VStr CREATE) then
    Meta.insert meta state (payload action)
  else if strict_eq (type action) (VStr UPDATE) then
    match member (payload action) "idArr" with
    | Throw e => Throw e
    | Ok idArr =>
        match member (payload action) "updater" with
        | Throw e => Throw e
        | Ok updater => Meta.update meta state idArr updater
        end
    end
  else if strict_eq (type action) (VStr DELETE) then
    Meta.delete meta state (payload action)
  else Ok state.

(** [static getNextState()].  [this.state] is read twice, for the test
    and as the initial value of the fold; nothing writes the session in
    between, so the second read finds the branch of the first (lemma
    [getNextState_eq]) and its [undefined] case is never reached.
    Modelled from the spec: the session, which receives the class in
    [getMutationsFor(this)], asks it for its name and returns the records
    that target it. *)
Definition getNextState (this : nat) : M B B :=
  let! current := state this in
  match current with
  | None => getDefaultState this
  | Some _ =>
      let! meta := getMetaInstance this in
      let! s := session this in
      let! mutations :=
        invoke s (ret this)
          (fun model => let! n := getName model in Session_getMutationsFor n) in
      let! initial := state this in
      match initial with
      | Some branch => lift (reduce (reducer meta) mutations branch)
      | None => throw TypeError
      end
  end.

(** [static addMutation(mutation)] *)
Definition addMutation (this : nat) (mutation : Mutation) : M B unit :=
  let! n := getName this in
  let mutation := mkMutation (type mutation) (payload mutation)
                             (VObj [("name", VStr n)]) in
  let! s := session this in
  invoke s (ret mutation) Session_addMutation.

(** [fieldInstance instanceof ManyToMany] *)
Definition instanceof_ManyToMany (fieldInstance : Field) : bool :=
  match fieldInstance with
  | ManyToMany _ => true
  | _ => false
  end.

(** [static getManyToManyModels()]: one class per many-to-many field, in
    the order of [forOwn]. [ThroughModel] extends the class returned by
    [getThroughModelClass()], that is [Model]: no session, no [Meta]
    instance yet, the imported [Meta] class. *)
Definition ThroughModel (thisModelName relatedModelName fieldName : string)
  : ModelClass B :=
  let fromFieldName := m2mFromFieldName thisModelName in
  let toFieldName := m2mToFieldName relatedModelName in
  mkClass
    (obj_literal [(fromFieldName, ForeignKey thisModelName);
                  (toFieldName, ForeignKey relatedModelName)])
    []
    (Ok (mkMetaOptions (m2mName thisModelName fieldName) None))
    newMeta
    VUndefined
    None.

Fixpoint manyToManyModels (thisModelName : string)
  (fields : list (string * Field)) : list (ModelClass B) :=
  match fields with
  | [] => []
  | (fieldName, fieldInstance) :: fields' =>
      match fieldInstance with
      | ManyToMany related =>
          let relatedModelName :=
            if String.eqb related "this" then thisModelName else related in
          ThroughModel thisModelName relatedModelName fieldName
            :: manyToManyModels thisModelName fields'
      | _ => manyToManyModels thisModelName fields'
      end
  end.

Definition getManyToManyModels (this : nat) : M B (list (ModelClass B)) :=
  let! c := loadClass this in
  let fields := fields c in
  let! thisModelName := getName this in
  ret (manyToManyModels thisModelName fields).

(** [Object.defineProperty(this, k, {get, set})]: the property it
    defines is not configurable, defining it again is a TypeError. *)
Definition defineProperty (own : list (string * Accessor)) (k : string)
  (a : Accessor) : result (list (string * Accessor)) :=
  if includes (keys own) k then Throw TypeError else Ok (own ++ [(k, a)]).

(** [_initFields(fields, props)]: an accessor built by the field
    instance for every declared field, then a plain accessor for every
    property that is not a declared field. *)
Definition _initFields (this : nat) (fields : list (string * Field))
  (props : list (string * value)) : M B Instance :=
  let! modelName := getName this in
  let! meta := getMetaInstance this in
  let idAttribute := Meta.idAttribute meta in
  let! session := session this in
  let! own := lift (reduce
    (fun own f =>
       defineProperty own (fst f)
         (FieldAccessor (snd f) session (index props (fst f))))
    fields []) in
  let fieldsAssigned := keys fields in
  let! own := lift (reduce
    (fun own p =>
       if includes fieldsAssigned (fst p) then Ok own
       else defineProperty own (fst p)
              (PlainAccessor (snd p) session idAttribute modelName))
    props own) in
  ret (mkInstance this (keys props) props own).

(** [_initVirtualFields(virtualFields)] *)
Definition _initVirtualFields (this : nat) (i : Instance)
  (virtualFields : list (string * Field)) : M B Instance :=
  let! session := session this in
  let! own := lift (reduce
    (fun own f =>
       defineProperty own (fst f) (FieldAccessor (snd f) session VUndefined))
    virtualFields (accessors i)) in
  ret (mkInstance (constructor i) (_fieldNames i) (_fields i) own).

(** [new ModelClass(props)] *)
Definition new (ModelClass : nat) (props : list (string * value)) : M B nat :=
  let! c := loadClass ModelClass in
  let! i := _initFields ModelClass (fields c) props in
  let! i := _initVirtualFields ModelClass i (virtualFields c) in
  allocInstance i.

(** [getClass()]: [this.constructor] *)
Definition getClass (self : nat) : M B nat :=
  let! i := loadInstance self in ret (constructor i).

(** [getId()] *)
Definition getId (self : nat) : M B value :=
  let! i := loadInstance self in
  let! c := getClass self in
  let! m := getMetaInstance c in
  ret (index (_fields i) (Meta.idAttribute m)).

(** Reading the property [k] of a facade through its accessor. *)
Definition get (i : Instance) (k : string) : value :=
  match obj_get (accessors i) k with
  | Some (PlainAccessor fieldValue _ _ _) => fieldValue
  | Some (FieldAccessor fieldInstance s propValue) =>
      getGetter fieldInstance s k propValue
  | None => VUndefined
  end.

(** The [set] closure of the plain accessor of [fieldName]:
    [session], [idAttribute] and [modelName] are the captured ones. *)
Definition PlainAccessor_set (session : value) (idAttribute modelName : string)
  (self : nat) (fieldName : string) (v : value) : M B unit :=
  invoke session
    (let! id := getId self in
     ret (mkMutation (VStr UPDATE)
            (VObj (obj_literal [(idAttribute, id); (fieldName, v)]))
            (VObj [("name", VStr modelName)])))
    Session_addMutation.

(** [equals(otherModel)] *)
Definition equals (self otherModel : nat) : M B bool :=
  let! c := getClass self in
  let! c' := getClass otherModel in
  if Nat.eqb c c' then
    let! id := getId self in
    let! id' := getId otherModel in
    ret (strict_eq id id')
  else ret false.

(** [update(mergeObj)] *)
Definition update (self : nat) (mergeObj : value) : M B unit :=
  let! c := getClass self in
  let! id := getId self in
  let! c' := getClass self in
  let! n := getName c' in
  addMutation c
    (mkMutation (VStr UPDATE)
       (VObj [("idArr", VArr [id]); ("updater", mergeObj)])
       (VObj [("name", VStr n)])).

(** [set(propertyName, value)] *)
Definition set (self : nat) (propertyName : string) (v : value) : M B unit :=
  update self (VObj (obj_literal [(propertyName, v)])).

(** [delete()]: the receiver of [addMutation] is [this.session], a
    property of the facade. *)
Definition delete (self : nat) : M B unit :=
  let! i := loadInstance self in
  invoke (get i "session")
    (let! id := getId self in
     let! c := getClass self in
     let! n := getName c in
     ret (mkMutation (VStr DELETE) (VArr [id]) (VObj [("name", VStr n)])))
    Session_addMutation.


(** [static reducer(state, action, model, session)], the default
    reducer (the name [reducer] is the callback of the fold above). *)
Definition reducer_default (state : option B) (action : value) (model : nat)
  (session : value) : M B B :=
  getNextState model.

(** [static callUserReducer()] for a class that keeps the default
    reducer.  [actionOf] is the [action] property of the session object,
    which [./Session] would define. *)
Definition callUserReducer (actionOf : Session.t B -> value) (this : nat)
  : M B B :=
  let! state := state this in
  let! s := session this in
  let! action :=
    match s with
    | VSession => fun st => (Ok (actionOf (sessionObj st)), st)
    | _ => lift (member s "action")
    end in
  let! s' := session this in
  reducer_default state action this s'.

(** The class [Model] itself: [Model.fields = {}], [getMetaOptions()]
    throws and [getMetaClass()] is the imported [Meta]. *)
Definition base : ModelClass B :=
  mkClass [] []
    (Throw (Error_ "You must declare a static getMetaOptions function in your Model class."))
    newMeta VUndefined None.

End Methods.
End Model.

(** ** The mutation fold as the specification words it

    Mutation records as the tagged variant of the data model, their
    application through the branch algebra, and the next state of an
    entity: these follow the specification, not [Model.js], and are what
    [Model.getNextState] is compared with. *)
Module Spec.

Inductive MutationRecord : Type :=
| Create (payload : value)
| Update (idSelector updater : value)
| Delete (idSelector : value).

Definition isCreate (r : MutationRecord) : bool :=
  match r with
  | Create _ => true
  | _ => false
  end.

Section Fold.
Context {B : Type} `{!Imports B}.

(** The log entry of a record that targets [entityName]. *)
Definition toMutation (entityName : string) (r : MutationRecord) : Mutation :=
  let target := VObj [("name", VStr entityName)] in
  match r with
  | Create p => mkMutation (VStr CREATE) p target
  | Update ids updater =>
      mkMutation (VStr UPDATE)
                 (VObj [("idArr", ids); ("updater", updater)]) target
  | Delete ids => mkMutation (VStr DELETE) ids target
  end.

(** Each tag goes to its operation of the branch algebra. *)
Definition apply (meta : Meta.t B) (S : B) (r : MutationRecord) : result B :=
  match r with
  | Create p => Meta.insert meta S p
  | Update ids updater => Meta.update meta S ids updater
  | Delete ids => Meta.delete meta S ids
  end.

(** The records are applied in order; the first failure is the result. *)
Definition fold (meta : Meta.t B) (S : B) (rs : list MutationRecord)
  : result B :=
  fold_left
    (fun acc r =>
       match acc with
       | Ok branch => apply meta branch r
       | Throw e => Throw e
       end)
    rs (Ok S).

(** The next state: with no current state, the default state with the
    Create records folded in; otherwise the fold over the current
    state. *)
Definition getNextState (meta : Meta.t B) (current : option B)
  (rs : list MutationRecord) : result B :=
  match current with
  | None => fold meta (Meta.getDefaultState meta) (List.filter isCreate rs)
  | Some branch => fold meta branch rs
  end.

End Fold.
End Spec.

(** ** A branch algebra

    [./Meta] is not in the sources: the normalized table of one entity
    and its operations follow the specification.  Records are objects,
    ids are compared with [===]. *)
Module Branch.

(** Modelled from the spec: the branch of an entity, the ids in
    insertion order and the records by id ([./Meta] is missing), with the
    counter the fresh ids are drawn from. *)
Record t : Type := mk {
  idArray : list value;
  itemsById : list (value * value);
  nextId : Z
}.

(** Modelled from the spec: [defaultState()], the empty branch. *)
Definition defaultState : t := mk [] [] 0.

(** Modelled from the spec: [accessById(state, id)], the record or the
    not-found marker. *)
Definition accessById (S : t) (id : value) : option value :=
  snd <$> List.find (fun kv => strict_eq (fst kv) id) (itemsById S).

(** Modelled from the spec: an id selector is one id or an array of
    ids. *)
Definition selected (idSelector : value) (id : value) : bool :=
  match idSelector with
  | VArr ids => existsb (strict_eq id) ids
  | one => strict_eq id one
  end.

(** Modelled from the spec: fresh ids increase, also past a supplied
    integer id. *)
Definition bump (n : Z) (id : value) : Z :=
  match id with
  | VNum k => Z.max n (k + 1)
  | _ => n
  end.

(** Modelled from the spec: [insert(state, payload)] assigns a fresh id
    when the payload has none, fails with [DuplicateIdError] when the id
    is taken, and appends the id and the record. *)
Definition insert (idAttribute : string) (S : t) (payload : value) : result t :=
  match payload with
  | VObj o =>
      let supplied := index o idAttribute in
      let id := if strict_eq supplied VUndefined then VNum (nextId S)
                else supplied in
      let record := if strict_eq supplied VUndefined then obj_set o idAttribute id
                    else o in
      match accessById S id with
      | Some _ => Throw DuplicateIdError
      | None => Ok (mk (idArray S ++ [id])
                       (itemsById S ++ [(id, VObj record)])
                       (bump (nextId S) id))
      end
  | _ => Throw TypeError
  end.

(** Modelled from the spec: the merge of an updater into a record,
    field by field, the updater's value wins. *)
Definition merge (record updater : value) : value :=
  match record, updater with
  | VObj r, VObj u =>
      VObj (fold_left (fun acc kv => obj_set acc (fst kv) (snd kv)) u r)
  | _, _ => record
  end.

(** Modelled from the spec: [update(state, idSelector, updater)] merges
    the updater into every selected record that is present; [idArray] is
    unchanged and an absent id is skipped. *)
Definition update (S : t) (idSelector updater : value) : result t :=
  Ok (mk (idArray S)
         (map (fun kv => if selected idSelector (fst kv)
                         then (fst kv, merge (snd kv) updater) else kv)
              (itemsById S))
         (nextId S)).

(** Modelled from the spec: [delete(state, idSelector)] removes every
    selected id from [idArray] and [itemsById]; an absent id is
    skipped. *)
Definition delete (S : t) (idSelector : value) : result t :=
  Ok (mk (List.filter (fun id => negb (selected idSelector id)) (idArray S))
         (List.filter (fun kv => negb (selected idSelector (fst kv)))
                      (itemsById S))
         (nextId S)).

(** Modelled from the spec: the schema descriptor built from the
    declared options, with ["id"] as the id attribute when none is
    declared. *)
Definition meta (options : MetaOptions) : Meta.t t :=
  let idAttribute := default "id" (opt_idAttribute options) in
  Meta.mk (opt_name options) idAttribute defaultState
          (insert idAttribute) update delete.

End Branch.

(** ** A concrete setting

    Three distinct tags, a from/to naming of the through models and the
    branch algebra above; a relational getter returns the stored key. *)
#[export] Instance exampleImports : Imports Branch.t := {|
  CREATE := "CREATE";
  UPDATE := "UPDATE";
  DELETE := "DELETE";
  m2mName := fun modelName fieldName =>
    String.append modelName (String.append "_" fieldName);
  m2mToFieldName := fun modelName => String.append "to_" modelName;
  m2mFromFieldName := fun modelName => String.append "from_" modelName;
  newMeta := Branch.meta;
  getGetter := fun _ _ _ propValue => propValue
|}.

Module Example.

(** A model [Person] declared with no relational field, not connected. *)
Definition Person : ModelClass Branch.t :=
  mkClass [] [] (Ok (mkMetaOptions "Person" None)) Branch.meta VUndefined None.

(** A model [Book] with a many-to-many field to [Person], a foreign key
    and a many-to-many field to itself. *)
Definition Book : ModelClass Branch.t :=
  mkClass [("authors", ManyToMany "Person");
           ("publisher", ForeignKey "Publisher");
           ("sequels", ManyToMany "this")]
          [] (Ok (mkMetaOptions "Book" None)) Branch.meta VUndefined None.

Definition alice : list (string * value) :=
  [("id", VNum 1); ("name", VStr "a")].

Definition people : Branch.t :=
  Branch.mk [VNum 1] [(VNum 1, VObj alice)] 2.

(** An open session that knows both models, with an empty log; [Person]
    has a current branch or not. *)
Definition openSession (current : gmap string Branch.t) : Session.t Branch.t :=
  Session.mk current [] ["Person"; "Book"] Session.Open.

Definition emptyStore (current : gmap string Branch.t) : Store Branch.t :=
  mkStore (openSession current) [Person; Book] [].

(** The store after [Person.connect(session)], [Book.connect(session)]
    and [new Person(alice)]. *)
Definition setup (current : gmap string Branch.t) : M Branch.t nat :=
  let! _ := Model.connect 0%nat VSession in
  let! _ := Model.connect 1%nat VSession in
  Model.new 0%nat alice.

Definition withPeople : Store Branch.t :=
  snd (setup {["Person" := people]} (emptyStore {["Person" := people]})).

Definition withoutState : Store Branch.t :=
  snd (setup ∅ (emptyStore ∅)).

Definition bob : list (string * value) :=
  [("id", VNum 2); ("name", VStr "b")].

(** [Person] has no current branch and the log holds a Create record for
    it, appended with [Person.addMutation]. *)
Definition created : Store Branch.t :=
  snd (Model.addMutation 0%nat (mkMutation (VStr CREATE) (VObj alice) VUndefined)
         withoutState).

(** The records [Person.addMutation] and [alice.update] append for
    [Person], with one for [Book] in between. *)
Definition edits : list Spec.MutationRecord :=
  [Spec.Update (VArr [VNum 1]) (VObj [("name", VStr "c")]);
   Spec.Create (VObj bob);
   Spec.Delete (VArr [VNum 1])].

Definition edit (withBook : bool) : M Branch.t unit :=
  let! _ := Model.update 0%nat (VObj [("name", VStr "c")]) in
  let! _ := if withBook
            then Model.addMutation 1%nat
                   (mkMutation (VStr CREATE) (VObj [("id", VNum 7)]) VUndefined)
            else ret tt in
  let! _ := Model.addMutation 0%nat
              (mkMutation (VStr CREATE) (VObj bob) VUndefined) in
  Model.addMutation 0%nat
    (mkMutation (VStr DELETE) (VArr [VNum 1]) VUndefined).

Definition edited : Store Branch.t := snd (edit true withPeople).

Definition editedPersonOnly : Store Branch.t := snd (edit false withPeople).

(** The [Meta] instances, the classes once connected and resolved, and
    the facade of [alice], as [setup] leaves them. *)
Definition PersonMeta : Meta.t Branch.t :=
  Branch.meta (mkMetaOptions "Person" None).

Definition BookMeta : Meta.t Branch.t :=
  Branch.meta (mkMetaOptions "Book" None).

Definition PersonClass : ModelClass Branch.t :=
  withMeta (withSession Person VSession) PersonMeta.

Definition BookClass : ModelClass Branch.t := withSession Book VSession.

Definition aliceFacade : Instance :=
  mkInstance 0%nat ["id"; "name"] alice
    [("id", PlainAccessor (VNum 1) VSession "id" "Person");
     ("name", PlainAccessor (VStr "a") VSession "id" "Person")].

Definition otherFacade : Instance :=
  mkInstance 0%nat ["id"; "name"] [("id", VNum 1); ("name", VStr "z")]
    [("id", PlainAccessor (VNum 1) VSession "id" "Person");
     ("name", PlainAccessor (VStr "z") VSession "id" "Person")].

(** A second facade for the row of [alice], built from another
    snapshot. *)
Definition twoFacades : Store Branch.t :=
  snd (Model.new 0%nat [("id", VNum 1); ("name", VStr "z")] withPeople).

(** The store after the assignment [alice.name = "c"], through the plain
    accessor of [name]. *)
Definition assigned : Store Branch.t :=
  snd (Model.PlainAccessor_set VSession "id" "Person" 0%nat "name" (VStr "c")
         withPeople).

(** The two classes connected, before any facade is built. *)
Definition connected (current : gmap string Branch.t) : Store Branch.t :=
  snd ((let! _ := Model.connect 0%nat VSession in Model.connect 1%nat VSession)
         (emptyStore current)).

Definition zoe : list (string * value) :=
  [("id", VNum 1); ("name", VStr "z")].

(** The facade of [alice] as built before [Person] is connected. *)
Definition earlyFacade : Instance :=
  mkInstance 0%nat ["id"; "name"] alice
    [("id", PlainAccessor (VNum 1) VUndefined "id" "Person");
     ("name", PlainAccessor (VStr "a") VUndefined "id" "Person")].

Definition early : Store Branch.t :=
  snd (Model.new 0%nat alice (emptyStore {["Person" := people]})).

(** A model with a virtual field [name], and a store that holds it
    beside [Model] itself and a through model of [Book]. *)
Definition Clash : ModelClass Branch.t :=
  mkClass [] [("name", ForeignKey "Book")]
          (Ok (mkMetaOptions "Clash" None)) Branch.meta VUndefined None.

Definition BookAuthors : ModelClass Branch.t :=
  Model.ThroughModel "Book" "Person" "authors".

Definition others : Store Branch.t :=
  mkStore (openSession ∅) [Clash; Model.base; BookAuthors] [].

(** The error of [Model.getMetaOptions()]. *)
Definition undeclared : Error :=
  Error_ "You must declare a static getMetaOptions function in your Model class.".

(** [withPeople] once [Book] has its [Meta] instance. *)
Definition withBookMeta : Store Branch.t :=
  snd (Model.getMetaInstance 1%nat withPeople).

(** The log of [withPeople] with one record of an unknown type, and with
    one Update record that has no payload. *)
Definition archived : Store Branch.t :=
  snd (Model.addMutation 0%nat
         (mkMutation (VStr "ARCHIVE") (VArr [VNum 1]) VUndefined) withPeople).

Definition broken : Store Branch.t :=
  snd (Model.addMutation 0%nat
         (mkMutation (VStr UPDATE) VUndefined VUndefined) withPeople).

End Example.


(** ** What the [Meta] cache of a class resolves to *)
Section Resolution.
Context {B : Type}.

(** The [Meta] instance [getMetaInstance] returns for a class: the
    cached one, or the one built from the options. *)
Definition metaOf (c : ModelClass B) : result (Meta.t B) :=
  match _meta c with
  | Some m => Ok m
  | None =>
      match getMetaOptions c with
      | Ok options => Ok (getMetaClass c options)
      | Throw e => Throw e
      end
  end.

(** The store once [getMetaInstance] has cached [m] in the class at
    [this]. *)
Definition cached (this : nat) (c : ModelClass B) (m : Meta.t B)
  (st : Store B) : Store B :=
  mkStore (sessionObj st) (<[this := withMeta c m]> (classes st)) (instances st).

(** The accessors [_initFields] and [_initVirtualFields] define on a
    facade of the class [c] built from [props]: the three [forOwn] loops
    in sequence. *)
Definition accessorsOf (c : ModelClass B) (m : Meta.t B)
  (props : list (string * value)) : result (list (string * Accessor)) :=
  match reduce
          (fun own f =>
             Model.defineProperty own (fst f)
               (FieldAccessor (snd f) (_session c) (index props (fst f))))
          (fields c) [] with
  | Throw e => Throw e
  | Ok own =>
      match reduce
              (fun own p =>
                 if includes (keys (fields c)) (fst p) then Ok own
                 else Model.defineProperty own (fst p)
                        (PlainAccessor (snd p) (_session c)
                           (Meta.idAttribute m) (Meta.name m)))
              props own with
      | Throw e => Throw e
      | Ok own =>
          reduce
            (fun own f =>
               Model.defineProperty own (fst f)
                 (FieldAccessor (snd f) (_session c) VUndefined))
            (virtualFields c) own
      end
  end.

End Resolution.

(** * Properties *)

(** ** Strict equality and objects *)

Lemma strict_eq_true (x y : value) : strict_eq x y = true -> x = y.
Proof.
  destruct x, y; simpl; try discriminate; try reflexivity; intros E.
  - apply Bool.eqb_prop in E. congruence.
  - apply Z.eqb_eq in E. congruence.
  - apply String.eqb_eq in E. congruence.
Qed.

Lemma strict_eq_refl (x : value) : by_value x = true -> strict_eq x x = true.
Proof.
  destruct x; simpl; try discriminate; try reflexivity; intros _.
  - apply Bool.eqb_reflx.
  - apply Z.eqb_refl.
  - apply String.eqb_refl.
Qed.

Lemma strict_eq_false (x y : value) : x <> y -> strict_eq x y = false.
Proof.
  intros N. destruct (strict_eq x y) eqn:E; [|reflexivity].
  apply strict_eq_true in E. contradiction.
Qed.

Lemma strict_eq_VStr (a b : string) :
  strict_eq (VStr a) (VStr b) = if decide (a = b) then true else false.
Proof.
  simpl. destruct (decide (a = b)) as [->|N].
  - apply String.eqb_refl.
  - apply String.eqb_neq. exact N.
Qed.

(** ** The store *)

Lemma store_eta {B} (st : Store B) :
  mkStore (sessionObj st) (classes st) (instances st) = st.
Proof. destruct st; reflexivity. Qed.

Lemma withMeta_cached {B} (c : ModelClass B) (m : Meta.t B) :
  _meta c = Some m -> withMeta c m = c.
Proof. destruct c; simpl; intros ->; reflexivity. Qed.

(** Unfolding of the store monad. *)
Ltac unfold_M :=
  unfold bind, ret, throw, lift, loadClass, storeClass, loadInstance,
    allocInstance, Session_addMutation, Session_getState,
    Session_getMutationsFor in *.

Section Properties.
Context {B : Type} `{!Imports B}.

Implicit Types (st : Store B) (c : ModelClass B) (m : Meta.t B).

Lemma metaOf_withMeta c m : metaOf (withMeta c m) = Ok m.
Proof. reflexivity. Qed.

Lemma cached_lookup this c m st :
  classes st !! this = Some c ->
  classes (cached this c m st) !! this = Some (withMeta c m).
Proof.
  intros H. simpl. apply list_lookup_insert_eq.
  eapply lookup_lt_Some; eassumption.
Qed.

Lemma cached_id this c m st :
  classes st !! this = Some c -> _meta c = Some m -> cached this c m st = st.
Proof.
  intros H E. unfold cached. rewrite (withMeta_cached c m E).
  rewrite (list_insert_id _ _ _ H). apply store_eta.
Qed.

Lemma cached_idem this c m st :
  cached this (withMeta c m) m (cached this c m st) = cached this c m st.
Proof.
  unfold cached; simpl. rewrite list_insert_insert_eq. reflexivity.
Qed.

Lemma session_eq this c st :
  classes st !! this = Some c ->
  Model.session this st = (Ok (_session c), st).
Proof. intros H. unfold Model.session. unfold_M. rewrite H. reflexivity. Qed.

Lemma getMetaInstance_eq this c st :
  classes st !! this = Some c ->
  Model.getMetaInstance this st =
    match metaOf c with
    | Ok m => (Ok m, cached this c m st)
    | Throw e => (Throw e, st)
    end.
Proof.
  intros H. unfold Model.getMetaInstance, metaOf. unfold_M. rewrite H.
  destruct (_meta c) as [m|] eqn:E.
  - rewrite (cached_id this c m st H E). reflexivity.
  - destruct (getMetaOptions c); reflexivity.
Qed.

Lemma getMetaInstance_missing this st :
  classes st !! this = None ->
  Model.getMetaInstance this st = (Throw ReferenceError, st).
Proof. intros H. unfold Model.getMetaInstance. unfold_M. rewrite H. reflexivity. Qed.

Lemma getName_eq this c st :
  classes st !! this = Some c ->
  Model.getName this st =
    match metaOf c with
    | Ok m => (Ok (Meta.name m), cached this c m st)
    | Throw e => (Throw e, st)
    end.
Proof.
  intros H. unfold Model.getName, bind. rewrite (getMetaInstance_eq _ _ _ H).
  destruct (metaOf c); reflexivity.
Qed.

(** [this.state] on a class: what it returns and the store it leaves. *)
Lemma state_eq this c st :
  classes st !! this = Some c ->
  Model.state this st =
    if nullish (_session c) then (Throw TypeError, st)
    else match metaOf c with
         | Throw e => (Throw e, st)
         | Ok m =>
             match _session c with
             | VSession =>
                 (Ok (Session.getState (sessionObj st) (Meta.name m)),
                  cached this c m st)
             | _ => (Throw TypeError, cached this c m st)
             end
         end.
Proof.
  intros H. unfold Model.state, bind at 1. rewrite (session_eq _ _ _ H).
  unfold invoke. destruct (nullish (_session c)) eqn:N; [reflexivity|].
  unfold bind. rewrite (getName_eq _ _ _ H).
  destruct (metaOf c) as [m|e]; [|reflexivity].
  destruct (_session c); reflexivity.
Qed.

(** [getNextState()] in closed form: the errors it can raise, the
    default state when there is no current state, the fold otherwise. *)
Lemma getNextState_eq this c st :
  classes st !! this = Some c ->
  Model.getNextState this st =
    if nullish (_session c) then (Throw TypeError, st)
    else match metaOf c with
         | Throw e => (Throw e, st)
         | Ok m =>
             match _session c with
             | VSession =>
                 match Session.getState (sessionObj st) (Meta.name m) with
                 | None => (Ok (Meta.getDefaultState m), cached this c m st)
                 | Some S0 =>
                     (reduce (Model.reducer m)
                        (Session.getMutationsFor (sessionObj st) (Meta.name m)) S0,
                      cached this c m st)
                 end
             | _ => (Throw TypeError, cached this c m st)
             end
         end.
Proof.
  intros H. unfold Model.getNextState, bind at 1.
  rewrite (state_eq _ _ _ H).
  destruct (nullish (_session c)) eqn:N; [reflexivity|].
  destruct (metaOf c) as [m|e] eqn:Em; [|reflexivity].
  destruct (_session c) eqn:Es; try reflexivity; try discriminate.
  pose proof (cached_lookup this c m st H) as H'.
  assert (Es' : _session (withMeta c m) = VSession) by exact Es.
  destruct (Session.getState (sessionObj st) (Meta.name m)) as [S|] eqn:Eg.
  - unfold bind.
    rewrite (getMetaInstance_eq _ _ _ H'), metaOf_withMeta, cached_idem.
    rewrite (session_eq _ _ _ (cached_lookup this c m st H)), Es'.
    unfold invoke, bind, ret. change (nullish VSession) with false.
    cbv beta iota.
    rewrite (getName_eq _ _ _ H'), metaOf_withMeta, cached_idem.
    unfold Session_getMutationsFor.
    rewrite (state_eq _ _ _ H'), Es', metaOf_withMeta, cached_idem. simpl.
    rewrite Eg. reflexivity.
  - unfold Model.getDefaultState, bind.
    rewrite (getMetaInstance_eq _ _ _ H'), metaOf_withMeta, cached_idem.
    reflexivity.
Qed.

Lemma getNextState_missing this st :
  classes st !! this = None ->
  Model.getNextState this st = (Throw ReferenceError, st).
Proof.
  intros H. unfold Model.getNextState, Model.state, Model.session.
  unfold_M. rewrite H. reflexivity.
Qed.


(** ** The mutation fold *)

Lemma fold_Throw m (rs : list Spec.MutationRecord) (e : Error) :
  fold_left
    (fun acc r =>
       match acc with
       | Ok branch => Spec.apply m branch r
       | Throw e' => Throw e'
       end) rs (Throw e) = Throw e.
Proof. induction rs as [|r rs IH]; simpl; [reflexivity | exact IH]. Qed.

Lemma fold_cons m (S : B) r rs :
  Spec.fold m S (r :: rs) =
    match Spec.apply m S r with
    | Ok S' => Spec.fold m S' rs
    | Throw e => Throw e
    end.
Proof.
  unfold Spec.fold; simpl.
  destruct (Spec.apply m S r); [reflexivity | apply fold_Throw].
Qed.

(** On the log entry of a record the [switch] selects the operation of
    the record's tag. *)
Lemma reducer_toMutation m (S : B) (entityName : string) r :
  NoDup [CREATE; UPDATE; DELETE] ->
  Model.reducer m S (Spec.toMutation entityName r) = Spec.apply m S r.
Proof.
  intros D.
  assert (CU : CREATE <> UPDATE /\ CREATE <> DELETE /\ UPDATE <> DELETE).
  { inversion D as [|? ? N1 D1]; subst. inversion D1 as [|? ? N2 D2]; subst.
    repeat split; intros E; rewrite E in *; set_solver. }
  destruct CU as (CU & CD & UD).
  unfold Model.reducer. destruct r as [p|ids u|ids]; simpl type; simpl payload;
    rewrite !strict_eq_VStr.
  - rewrite decide_True by reflexivity. reflexivity.
  - rewrite decide_False by congruence.
    rewrite decide_True by reflexivity. simpl. reflexivity.
  - rewrite decide_False by congruence.
    rewrite decide_False by congruence.
    rewrite decide_True by reflexivity. reflexivity.
Qed.

Lemma reduce_toMutation m (entityName : string) rs : forall S : B,
  NoDup [CREATE; UPDATE; DELETE] ->
  reduce (Model.reducer m) (map (Spec.toMutation entityName) rs) S =
  Spec.fold m S rs.
Proof.
  induction rs as [|r rs IH]; intros S D.
  - reflexivity.
  - simpl map. simpl reduce. rewrite fold_cons, (reducer_toMutation _ _ _ _ D).
    destruct (Spec.apply m S r); [apply IH; exact D | reflexivity].
Qed.

(** What a successful read of [this.state] tells about the class. *)
Lemma state_inv this st st' (o : option B) :
  Model.state this st = (Ok o, st') ->
  exists c m,
    classes st !! this = Some c /\ _session c = VSession /\
    metaOf c = Ok m /\ st' = cached this c m st /\
    o = Session.getState (sessionObj st) (Meta.name m).
Proof.
  intros H. destruct (classes st !! this) as [c|] eqn:Hc.
  - rewrite (state_eq _ _ _ Hc) in H.
    destruct (nullish (_session c)); [discriminate|].
    destruct (metaOf c) as [m|e] eqn:Em; [|discriminate].
    destruct (_session c) eqn:Es; try discriminate.
    inversion H; subst. exists c, m. repeat split; assumption || reflexivity.
  - unfold Model.state, Model.session in H. unfold_M. rewrite Hc in H.
    discriminate.
Qed.

(** C1 (amended): for every model whose current branch state is
    undefined, [getNextState()] returns the default state of the model's
    [Meta] instance, whatever the log of the session holds. *)
Theorem getNextState_undefined_state this st st' :
  Model.state this st = (Ok None, st') ->
  exists m,
    Model.getMetaInstance this st = (Ok m, st') /\
    Model.getNextState this st = (Ok (Meta.getDefaultState m), st').
Proof.
  intros H. destruct (state_inv _ _ _ _ H) as (c & m & Hc & Es & Em & -> & Eg).
  exists m. rewrite (getMetaInstance_eq _ _ _ Hc), (getNextState_eq _ _ _ Hc).
  rewrite Em, Es, <- Eg. simpl. split; reflexivity.
Qed.

(** C3: for every model with a current state [S] and every sequence [rs]
    of mutation records whose entries make up the model's part of the
    log, [getNextState()] is the fold of [rs], in log order, over [S]:
    Create goes to [insert], Update to [update], Delete to [delete]. *)
Theorem getNextState_folds_log this st st' m (S : B) rs :
  NoDup [CREATE; UPDATE; DELETE] ->
  Model.state this st = (Ok (Some S), st') ->
  Model.getMetaInstance this st = (Ok m, st') ->
  Session.getMutationsFor (sessionObj st) (Meta.name m) =
    map (Spec.toMutation (Meta.name m)) rs ->
  Model.getNextState this st = (Spec.fold m S rs, st').
Proof.
  intros D H Hm Hlog.
  destruct (state_inv _ _ _ _ H) as (c & m' & Hc & Es & Em & -> & Eg).
  rewrite (getMetaInstance_eq _ _ _ Hc), Em in Hm. inversion Hm; subst m'.
  rewrite (getNextState_eq _ _ _ Hc), Em, Es, <- Eg. simpl.
  rewrite Hlog, (reduce_toMutation _ _ _ _ D). reflexivity.
Qed.

(** C4: the result of [getNextState()] is a function of the branch
    algebra, the current state and the model's part of the log: two runs
    that agree on them return the same result, and so does a second run
    on the store the first one leaves. *)
Theorem getNextState_deterministic this this' st st' c c' m (S : B) :
  classes st !! this = Some c ->
  classes st' !! this' = Some c' ->
  _session c = VSession ->
  _session c' = VSession ->
  metaOf c = Ok m ->
  metaOf c' = Ok m ->
  Session.getState (sessionObj st) (Meta.name m) = Some S ->
  Session.getState (sessionObj st') (Meta.name m) = Some S ->
  Session.getMutationsFor (sessionObj st) (Meta.name m) =
    Session.getMutationsFor (sessionObj st') (Meta.name m) ->
  fst (Model.getNextState this st) = fst (Model.getNextState this' st') /\
  Model.getNextState this (snd (Model.getNextState this st)) =
    Model.getNextState this st.
Proof.
  intros Hc Hc' Es Es' Em Em' Eg Eg' El.
  rewrite (getNextState_eq _ _ _ Hc), (getNextState_eq _ _ _ Hc').
  rewrite Es, Es', Em, Em', Eg, Eg'. simpl. split.
  - rewrite El. reflexivity.
  - rewrite (getNextState_eq _ _ _ (cached_lookup this c m st Hc)).
    rewrite metaOf_withMeta, cached_idem.
    change (_session (withMeta c m)) with (_session c). rewrite Es. simpl.
    rewrite Eg. reflexivity.
Qed.

(** C9: for every state [S] and every mutation record whose type is
    none of the three tags, the step of the fold returns [S] and does not
    throw. *)
Theorem reducer_unknown_type m (S : B) (action : Mutation) :
  type action <> VStr CREATE ->
  type action <> VStr UPDATE ->
  type action <> VStr DELETE ->
  Model.reducer m S action = Ok S.
Proof.
  intros NC NU ND. unfold Model.reducer.
  rewrite (strict_eq_false _ _ NC), (strict_eq_false _ _ NU),
    (strict_eq_false _ _ ND).
  reflexivity.
Qed.


(** ** Connecting a class to a session *)

Lemma connect_eq this (x : value) c st :
  classes st !! this = Some c ->
  Model.connect this x st =
    (Ok tt, mkStore (sessionObj st) (<[this := withSession c x]> (classes st))
                    (instances st)).
Proof.
  intros H. unfold Model.connect. simpl. unfold_M. rewrite H. reflexivity.
Qed.

(** C10: for every truthy argument [x], a session or not,
    [Model.connect(x)] does not throw and leaves [x] as the session of
    the class. *)
Theorem connect_accepts_truthy this (x : value) c st :
  truthy x = true ->
  classes st !! this = Some c ->
  exists st',
    Model.connect this x st = (Ok tt, st') /\
    Model.session this st' = (Ok x, st') /\
    sessionObj st' = sessionObj st /\ instances st' = instances st.
Proof.
  intros _ H. eexists. split; [apply (connect_eq _ _ _ _ H)|].
  split; [|split; reflexivity].
  rewrite (session_eq this (withSession c x)); [reflexivity|].
  simpl. apply list_lookup_insert_eq. eapply lookup_lt_Some; eassumption.
Qed.

(** ** Through models *)

Lemma obj_literal_pair {A} (k1 k2 : string) (v1 v2 : A) :
  k1 <> k2 -> obj_literal [(k1, v1); (k2, v2)] = [(k1, v1); (k2, v2)].
Proof.
  intros N. unfold obj_literal; simpl.
  apply String.eqb_neq in N. rewrite N. reflexivity.
Qed.

Lemma manyToManyModels_through (A : string) (fs : list (string * Field)) :
  (forall a b, m2mFromFieldName a <> m2mToFieldName b) ->
  Forall2
    (fun f (T : ModelClass B) =>
       exists related,
         snd f = ManyToMany related /\
         let relatedModelName :=
           if decide (related = "this") then A else related in
         getMetaOptions T = Ok (mkMetaOptions (m2mName A (fst f)) None) /\
         fields T = [(m2mFromFieldName A, ForeignKey A);
                     (m2mToFieldName relatedModelName,
                      ForeignKey relatedModelName)])
    (List.filter (fun f => Model.instanceof_ManyToMany (snd f)) fs)
    (Model.manyToManyModels A fs).
Proof.
  intros N. induction fs as [|[fieldName fieldInstance] fs IH]; simpl.
  - constructor.
  - destruct fieldInstance as [|related|related]; simpl; try exact IH.
    constructor; [|exact IH].
    exists related. split; [reflexivity|]. simpl.
    replace (if decide (related = "this") then A else related)
      with (if String.eqb related "this" then A else related).
    + split; [reflexivity|]. apply obj_literal_pair, N.
    + destruct (decide (related = "this")) as [->|Nr].
      * reflexivity.
      * apply String.eqb_neq in Nr. rewrite Nr. reflexivity.
Qed.

(** C8: for every model [A], [getManyToManyModels()] yields one through
    model per many-to-many field [F] of [A], in order, named
    [m2mName(A, F)], whose fields are exactly two foreign keys: the
    "from" field named from [A] referencing [A] and the "to" field named
    from the related model referencing it; when the field relates to
    ['this'] both keys reference [A] under the two names.  The naming
    helpers are those of [./utils], taken to give different from- and
    to-names. *)
Theorem getManyToManyModels_through this st st' c m :
  (forall a b, m2mFromFieldName a <> m2mToFieldName b) ->
  classes st !! this = Some c ->
  Model.getMetaInstance this st = (Ok m, st') ->
  exists models,
    Model.getManyToManyModels this st = (Ok models, st') /\
    Forall2
      (fun f (T : ModelClass B) =>
         exists related,
           snd f = ManyToMany related /\
           let relatedModelName :=
             if decide (related = "this") then Meta.name m else related in
           getMetaOptions T =
             Ok (mkMetaOptions (m2mName (Meta.name m) (fst f)) None) /\
           fields T = [(m2mFromFieldName (Meta.name m),
                        ForeignKey (Meta.name m));
                       (m2mToFieldName relatedModelName,
                        ForeignKey relatedModelName)])
      (List.filter (fun f => Model.instanceof_ManyToMany (snd f)) (fields c))
      models.
Proof.
  intros N Hc Hm. exists (Model.manyToManyModels (Meta.name m) (fields c)).
  split; [|apply manyToManyModels_through, N].
  unfold Model.getManyToManyModels, Model.getName, bind, loadClass.
  rewrite Hc, Hm. reflexivity.
Qed.


(** ** Facades *)

Lemma getClass_eq self (i : Instance) st :
  instances st !! self = Some i ->
  Model.getClass self st = (Ok (constructor i), st).
Proof. intros H. unfold Model.getClass. unfold_M. rewrite H. reflexivity. Qed.

Lemma getId_eq self (i : Instance) c st :
  instances st !! self = Some i ->
  classes st !! constructor i = Some c ->
  Model.getId self st =
    match metaOf c with
    | Ok m => (Ok (index (_fields i) (Meta.idAttribute m)),
               cached (constructor i) c m st)
    | Throw e => (Throw e, st)
    end.
Proof.
  intros Hi Hc. unfold Model.getId, bind. unfold loadInstance at 1.
  rewrite Hi, (getClass_eq _ _ _ Hi), (getMetaInstance_eq _ _ _ Hc).
  destruct (metaOf c); reflexivity.
Qed.

Lemma addMutation_eq this c m st (mutation : Mutation) :
  classes st !! this = Some c ->
  _session c = VSession ->
  metaOf c = Ok m ->
  Model.addMutation this mutation st =
    Session_addMutation
      (mkMutation (type mutation) (payload mutation)
                  (VObj [("name", VStr (Meta.name m))]))
      (cached this c m st).
Proof.
  intros Hc Es Em. unfold Model.addMutation, bind.
  rewrite (getName_eq _ _ _ Hc), Em.
  rewrite (session_eq _ _ _ (cached_lookup this c m st Hc)).
  change (_session (withMeta c m)) with (_session c). rewrite Es.
  reflexivity.
Qed.

(** [update(mergeObj)] hands exactly one record to the session. *)
Lemma update_eq self (i : Instance) c m st (mergeObj : value) :
  instances st !! self = Some i ->
  classes st !! constructor i = Some c ->
  _session c = VSession ->
  metaOf c = Ok m ->
  Model.update self mergeObj st =
    Session_addMutation
      (mkMutation (VStr UPDATE)
         (VObj [("idArr", VArr [index (_fields i) (Meta.idAttribute m)]);
                ("updater", mergeObj)])
         (VObj [("name", VStr (Meta.name m))]))
      (cached (constructor i) c m st).
Proof.
  intros Hi Hc Es Em. unfold Model.update, bind at 1 2 3 4.
  rewrite (getClass_eq _ _ _ Hi), (getId_eq _ _ _ _ Hi Hc), Em.
  assert (Hi' : instances (cached (constructor i) c m st) !! self = Some i)
    by exact Hi.
  rewrite (getClass_eq _ _ _ Hi').
  pose proof (cached_lookup _ c m st Hc) as Hc'.
  rewrite (getName_eq _ _ _ Hc'), metaOf_withMeta, cached_idem.
  rewrite (addMutation_eq _ _ m _ _ Hc' Es (metaOf_withMeta c m)), cached_idem.
  reflexivity.
Qed.

Lemma Session_addMutation_accepted st (mutation : Mutation) :
  Session.known (sessionObj st) (Session.targetEntityName mutation) = true ->
  Session.status (sessionObj st) = Session.Open ->
  exists st',
    Session_addMutation mutation st = (Ok tt, st') /\
    Session.mutations (sessionObj st') =
      Session.mutations (sessionObj st) ++ [mutation] /\
    Session.state (sessionObj st') = Session.state (sessionObj st) /\
    classes st' = classes st /\
    instances st' = instances st.
Proof.
  intros K O. unfold Session_addMutation, Session.addMutation.
  rewrite K, O. simpl. eexists. split; [reflexivity|].
  repeat split; reflexivity.
Qed.

(** C5: for every facade, [update(mergeObj)] and [set(field, value)]
    each append exactly one Update record to the log of the session: the
    updater of the first is [mergeObj] with all its fields, the updater
    of the second holds the single field.  The class is connected to the
    session, which is open and knows the model. *)
Theorem set_update_append_one self (i : Instance) c m st :
  instances st !! self = Some i ->
  classes st !! constructor i = Some c ->
  _session c = VSession ->
  metaOf c = Ok m ->
  Session.known (sessionObj st) (VStr (Meta.name m)) = true ->
  Session.status (sessionObj st) = Session.Open ->
  let record updater :=
    mkMutation (VStr UPDATE)
      (VObj [("idArr", VArr [index (_fields i) (Meta.idAttribute m)]);
             ("updater", updater)])
      (VObj [("name", VStr (Meta.name m))]) in
  (forall mergeObj, exists st',
     Model.update self mergeObj st = (Ok tt, st') /\
     Session.mutations (sessionObj st') =
       Session.mutations (sessionObj st) ++ [record mergeObj]) /\
  (forall propertyName v, exists st',
     Model.set self propertyName v st = (Ok tt, st') /\
     Session.mutations (sessionObj st') =
       Session.mutations (sessionObj st) ++ [record (VObj [(propertyName, v)])]).
Proof.
  intros Hi Hc Es Em K O record.
  assert (U : forall mergeObj, exists st',
     Model.update self mergeObj st = (Ok tt, st') /\
     Session.mutations (sessionObj st') =
       Session.mutations (sessionObj st) ++ [record mergeObj]).
  { intros mergeObj. rewrite (update_eq _ _ _ _ _ _ Hi Hc Es Em).
    destruct (Session_addMutation_accepted
                (cached (constructor i) c m st) (record mergeObj) K O)
      as (st' & E & L & _).
    exists st'. split; [exact E | exact L]. }
  split; [exact U|].
  intros propertyName v. unfold Model.set. apply U.
Qed.

(** C6: for all facades [a] and [b], [a.equals(b)] holds exactly when
    both have the same class and the same id value; nothing else of
    their snapshots is looked at.  The id is a value compared by
    content. *)
Theorem equals_iff self otherModel (i j : Instance) c c' m m' st :
  instances st !! self = Some i ->
  instances st !! otherModel = Some j ->
  classes st !! constructor i = Some c ->
  classes st !! constructor j = Some c' ->
  metaOf c = Ok m ->
  metaOf c' = Ok m' ->
  by_value (index (_fields i) (Meta.idAttribute m)) = true ->
  exists b st',
    Model.equals self otherModel st = (Ok b, st') /\
    (b = true <->
     constructor i = constructor j /\
     index (_fields i) (Meta.idAttribute m) =
     index (_fields j) (Meta.idAttribute m')).
Proof.
  intros Hi Hj Hc Hc' Em Em' V. unfold Model.equals, bind at 1 2.
  rewrite (getClass_eq _ _ _ Hi), (getClass_eq _ _ _ Hj).
  destruct (Nat.eqb (constructor i) (constructor j)) eqn:E.
  - apply Nat.eqb_eq in E. rewrite <- E in Hc'.
    assert (c' = c) by congruence. subst c'.
    assert (m' = m) by congruence. subst m'.
    unfold bind. rewrite (getId_eq _ _ _ _ Hi Hc), Em.
    assert (Hj' : instances (cached (constructor i) c m st) !! otherModel
                  = Some j) by exact Hj.
    assert (Hc2 : classes (cached (constructor i) c m st) !! constructor j
                  = Some (withMeta c m))
      by (rewrite <- E; apply cached_lookup, Hc).
    rewrite (getId_eq _ _ _ _ Hj' Hc2), metaOf_withMeta.
    eexists _, _. split; [reflexivity|]. split.
    + intros T. apply strict_eq_true in T. split; assumption.
    + intros [_ Eid]. rewrite <- Eid. apply strict_eq_refl, V.
  - apply Nat.eqb_neq in E. exists false, st. split; [reflexivity|].
    split; [discriminate | intros [? _]; contradiction].
Qed.


(** ** The plain accessor and [delete()] *)

(** The assignment through a plain accessor appends one record, whose
    payload holds the id under the id attribute and the value under the
    field name. *)
Lemma PlainAccessor_set_eq self (i : Instance) c m st
  (idAttribute modelName fieldName : string) (v : value) :
  instances st !! self = Some i ->
  classes st !! constructor i = Some c ->
  metaOf c = Ok m ->
  Model.PlainAccessor_set VSession idAttribute modelName self fieldName v st =
    Session_addMutation
      (mkMutation (VStr UPDATE)
         (VObj (obj_literal
                  [(idAttribute, index (_fields i) (Meta.idAttribute m));
                   (fieldName, v)]))
         (VObj [("name", VStr modelName)]))
      (cached (constructor i) c m st).
Proof.
  intros Hi Hc Em. unfold Model.PlainAccessor_set, invoke, bind. simpl.
  rewrite (getId_eq _ _ _ _ Hi Hc), Em. reflexivity.
Qed.

Lemma obj_literal_pair_get {A} (k1 k2 k : string) (v1 v2 : A) :
  k1 <> k -> k2 <> k -> obj_get (obj_literal [(k1, v1); (k2, v2)]) k = None.
Proof.
  intros N1 N2. unfold obj_literal; simpl.
  destruct (String.eqb k1 k2) eqn:E; simpl;
    apply String.eqb_neq in N1, N2; rewrite ?N1, ?N2; reflexivity.
Qed.

(** The step of the fold on such a record: [payload.idArr] and
    [payload.updater] are [undefined], neither the id nor the assigned
    value reaches [meta.update]. *)
Lemma reducer_plain_record m (S : B)
  (idAttribute fieldName : string) (id v target : value) :
  CREATE <> UPDATE ->
  idAttribute <> "idArr" -> idAttribute <> "updater" ->
  fieldName <> "idArr" -> fieldName <> "updater" ->
  Model.reducer m S
    (mkMutation (VStr UPDATE)
       (VObj (obj_literal [(idAttribute, id); (fieldName, v)])) target) =
  Meta.update m S VUndefined VUndefined.
Proof.
  intros CU N1 N2 N3 N4. unfold Model.reducer. simpl type. simpl payload.
  rewrite !strict_eq_VStr.
  rewrite decide_False by congruence. rewrite decide_True by reflexivity.
  unfold member, index. rewrite !obj_literal_pair_get by assumption.
  reflexivity.
Qed.

(** A facade with no property [session] cannot [delete()]: the receiver
    of [addMutation] is [undefined]. *)
Lemma delete_without_session self (i : Instance) st :
  instances st !! self = Some i ->
  obj_get (accessors i) "session" = None ->
  Model.delete self st = (Throw TypeError, st).
Proof.
  intros Hi E. unfold Model.delete, bind, loadInstance. rewrite Hi.
  unfold Model.get. rewrite E. reflexivity.
Qed.


(** * Further properties of [Model.js] *)

(** ** Objects and [reduce] *)

Lemma includes_true (l : list string) (k : string) :
  includes l k = true <-> In k l.
Proof.
  unfold includes. rewrite existsb_exists. split.
  - intros (x & Hx & E). apply String.eqb_eq in E. subst. exact Hx.
  - intros Hk. exists k. split; [exact Hk | apply String.eqb_refl].
Qed.

Lemma includes_false (l : list string) (k : string) :
  includes l k = false <-> ~ In k l.
Proof.
  rewrite <- includes_true. destruct (includes l k); split; intros H;
    try discriminate; try reflexivity; try (intros ?; discriminate).
  exfalso. apply H. reflexivity.
Qed.

Lemma reduce_app {A X} (f : A -> X -> result A) (l1 l2 : list X) (init : A) :
  reduce f (l1 ++ l2) init =
    match reduce f l1 init with
    | Ok acc => reduce f l2 acc
    | Throw e => Throw e
    end.
Proof.
  revert init. induction l1 as [|x l1 IH]; intros init; simpl.
  - reflexivity.
  - destruct (f init x); [apply IH | reflexivity].
Qed.

Lemma obj_get_None {A} (o : list (string * A)) (k : string) :
  obj_get o k = None <-> ~ In k (keys o).
Proof.
  induction o as [|[k' v] o IH]; simpl.
  - split; [intros _ [] | reflexivity].
  - destruct (String.eqb k' k) eqn:E.
    + apply String.eqb_eq in E. split; [discriminate | intros N].
      exfalso. apply N. left. exact E.
    + apply String.eqb_neq in E. rewrite IH. split.
      * intros N [H|H]; [contradiction | exact (N H)].
      * intros N H. apply N. right. exact H.
Qed.

Lemma obj_get_In {A} (o : list (string * A)) (k : string) (v : A) :
  List.NoDup (keys o) -> In (k, v) o -> obj_get o k = Some v.
Proof.
  induction o as [|[k' v'] o IH]; simpl; intros D H; [contradiction|].
  inversion D as [|? ? Nk D']; subst.
  destruct H as [H|H].
  - inversion H; subst. rewrite String.eqb_refl. reflexivity.
  - destruct (String.eqb k' k) eqn:E.
    + apply String.eqb_eq in E. subst k'. exfalso. apply Nk.
      apply (in_map fst) in H. exact H.
    + apply IH; assumption.
Qed.


Lemma filter_keep_all {A} (l : list A) :
  List.filter (fun _ => negb false) l = l.
Proof. induction l as [|x l IH]; simpl; [reflexivity | f_equal; exact IH]. Qed.

(** A loop of [defineProperty] that went through appended one accessor
    per entry it did not skip, and all names are different. *)
Lemma reduce_defineProperty {E} (key : E -> string) (acc : E -> Accessor)
  (skip : E -> bool) (es : list E) : forall own own',
  reduce (fun own e =>
            if skip e then Ok own
            else Model.defineProperty own (key e) (acc e)) es own = Ok own' ->
  own' = own ++ map (fun e => (key e, acc e))
                    (List.filter (fun e => negb (skip e)) es) /\
  (List.NoDup (keys own) -> List.NoDup (keys own')).
Proof.
  induction es as [|e es IH]; intros own own' H; simpl in H.
  - inversion H; subst. simpl. rewrite app_nil_r. split; [reflexivity | auto].
  - simpl. destruct (skip e) eqn:Es; simpl.
    + apply IH. exact H.
    + unfold Model.defineProperty in H at 1.
      destruct (includes (keys own) (key e)) eqn:Ei; [discriminate|].
      apply IH in H. destruct H as [-> D]. split.
      * rewrite <- app_assoc. reflexivity.
      * intros Do. apply D. unfold keys. rewrite map_app. simpl.
        apply NoDup_ListNoDup, NoDup_app. repeat split.
        -- apply NoDup_ListNoDup. exact Do.
        -- intros x Hx Hx'. apply list_elem_of_In in Hx.
           apply list_elem_of_singleton in Hx'. subst x.
           apply includes_false in Ei. contradiction.
        -- apply NoDup_singleton.
Qed.



(** ** Building a facade *)

(** [new C(props)] in closed form. *)
Lemma new_eq (C : nat) c st (props : list (string * value)) :
  classes st !! C = Some c ->
  Model.new C props st =
    match metaOf c with
    | Throw e => (Throw e, st)
    | Ok m =>
        match accessorsOf c m props with
        | Throw e => (Throw e, cached C c m st)
        | Ok own =>
            (Ok (length (instances st)),
             mkStore (sessionObj st) (<[C := withMeta c m]> (classes st))
                     (instances st ++ [mkInstance C (keys props) props own]))
        end
    end.
Proof.
  intros Hc. unfold Model.new, bind at 1. unfold loadClass at 1. rewrite Hc.
  unfold bind at 1. unfold Model._initFields, bind at 1.
  rewrite (getName_eq _ _ _ Hc).
  destruct (metaOf c) as [m|e] eqn:Em; [|reflexivity].
  pose proof (cached_lookup C c m st Hc) as Hc'.
  unfold bind at 1.
  rewrite (getMetaInstance_eq _ _ _ Hc'), metaOf_withMeta, cached_idem.
  unfold bind at 1. rewrite (session_eq _ _ _ Hc').
  change (_session (withMeta c m)) with (_session c).
  unfold accessorsOf, bind, lift, ret.
  destruct (reduce _ (fields c) []) as [own1|e]; [|reflexivity].
  change (fields (withMeta c m)) with (fields c).
  destruct (reduce _ props own1) as [own2|e]; [|reflexivity].
  unfold Model._initVirtualFields, bind, lift, ret.
  rewrite (session_eq _ _ _ Hc').
  change (_session (withMeta c m)) with (_session c). simpl accessors.
  destruct (reduce _ (virtualFields c) own2) as [own3|e]; reflexivity.
Qed.

Lemma new_missing (C : nat) st (props : list (string * value)) :
  classes st !! C = None ->
  Model.new C props st = (Throw ReferenceError, st).
Proof. intros H. unfold Model.new. unfold_M. rewrite H. reflexivity. Qed.

(** What a successful [new C(props)] did. *)
Lemma new_inv (C r : nat) st st' (props : list (string * value)) :
  Model.new C props st = (Ok r, st') ->
  exists c m own,
    classes st !! C = Some c /\ metaOf c = Ok m /\
    accessorsOf c m props = Ok own /\
    r = length (instances st) /\
    st' = mkStore (sessionObj st) (<[C := withMeta c m]> (classes st))
            (instances st ++ [mkInstance C (keys props) props own]).
Proof.
  intros H. destruct (classes st !! C) as [c|] eqn:Hc.
  - rewrite (new_eq _ _ _ _ Hc) in H.
    destruct (metaOf c) as [m|e] eqn:Em; [|discriminate].
    destruct (accessorsOf c m props) as [own|e] eqn:Ea; [|discriminate].
    inversion H; subst. exists c, m, own. repeat split; assumption.
  - rewrite (new_missing _ _ _ Hc) in H. discriminate.
Qed.

(** The accessors of a facade, in the order they are defined, under
    different names. *)
Lemma accessorsOf_inv c m (props : list (string * value)) own :
  accessorsOf c m props = Ok own ->
  own =
    map (fun f => (fst f, FieldAccessor (snd f) (_session c)
                            (index props (fst f)))) (fields c)
    ++ map (fun p => (fst p, PlainAccessor (snd p) (_session c)
                               (Meta.idAttribute m) (Meta.name m)))
           (List.filter (fun p => negb (includes (keys (fields c)) (fst p)))
                        props)
    ++ map (fun f => (fst f, FieldAccessor (snd f) (_session c) VUndefined))
           (virtualFields c) /\
  List.NoDup (keys own).
Proof.
  unfold accessorsOf. intros H.
  destruct (reduce _ (fields c) []) as [own1|e] eqn:E1; [|discriminate].
  destruct (reduce _ props own1) as [own2|e] eqn:E2; [|discriminate].
  apply (reduce_defineProperty fst
           (fun f => FieldAccessor (snd f) (_session c) (index props (fst f)))
           (fun _ => false)) in E1.
  apply (reduce_defineProperty fst
           (fun p => PlainAccessor (snd p) (_session c)
                       (Meta.idAttribute m) (Meta.name m))
           (fun p => includes (keys (fields c)) (fst p))) in E2.
  apply (reduce_defineProperty fst
           (fun f => FieldAccessor (snd f) (_session c) VUndefined)
           (fun _ => false)) in H.
  destruct E1 as [-> D1], E2 as [-> D2], H as [-> D3].
  split.
  - simpl. rewrite <- app_assoc, !filter_keep_all. reflexivity.
  - apply D3, D2, D1. constructor.
Qed.


Lemma obj_get_Some_In {A} (o : list (string * A)) (k : string) (v : A) :
  obj_get o k = Some v -> In (k, v) o.
Proof.
  induction o as [|[k' v'] o IH]; simpl; [discriminate|].
  destruct (String.eqb k' k) eqn:E.
  - apply String.eqb_eq in E. intros H. inversion H; subst. left. reflexivity.
  - intros H. right. apply IH, H.
Qed.

Lemma lookup_snoc_new {A} (l : list A) (x : A) : (l ++ [x]) !! length l = Some x.
Proof. apply list_lookup_middle. reflexivity. Qed.





(** X4: on the facade built from [props], reading a property that is
    not a declared field of the class gives the value [props] holds. *)
Theorem get_plain_new (C r : nat) st st' c (props : list (string * value))
  (i : Instance) (k : string) (v : value) :
  Model.new C props st = (Ok r, st') ->
  classes st !! C = Some c ->
  instances st' !! r = Some i ->
  In (k, v) props ->
  ~ In k (keys (fields c)) ->
  Model.get i k = v.
Proof.
  intros H Hc Hi Hkv Nk.
  destruct (new_inv _ _ _ _ _ H) as (c' & m & own & Hc' & Em & Ea & -> & ->).
  assert (c' = c) by congruence. subst c'.
  simpl in Hi. rewrite lookup_snoc_new in Hi. inversion Hi; subst i.
  destruct (accessorsOf_inv _ _ _ _ Ea) as [Eo D].
  unfold Model.get. simpl accessors.
  rewrite (obj_get_In own k
             (PlainAccessor v (_session c) (Meta.idAttribute m) (Meta.name m)) D);
    [reflexivity|].
  rewrite Eo. apply in_or_app. right. apply in_or_app. left.
  apply (in_map (fun p => (fst p, PlainAccessor (snd p) (_session c)
                                    (Meta.idAttribute m) (Meta.name m)))
                _ (k, v)).
  apply filter_In. split; [exact Hkv|]. simpl.
  apply includes_false in Nk. rewrite Nk. reflexivity.
Qed.




(** X6: when the class has no [Meta] instance yet and its
    [getMetaOptions()] throws, as that of [Model] itself does, the error
    comes out of [new], [getName()], [getManyToManyModels()],
    [addMutation()] and, once a session is set, [getNextState()]; the
    store is left as it was. *)
Theorem meta_error_propagates (C : nat) c st (e : Error)
  (props : list (string * value)) (mutation : Mutation) :
  classes st !! C = Some c ->
  metaOf c = Throw e ->
  Model.new C props st = (Throw e, st) /\
  Model.getName C st = (Throw e, st) /\
  Model.getManyToManyModels C st = (Throw e, st) /\
  Model.addMutation C mutation st = (Throw e, st) /\
  (nullish (_session c) = false -> Model.getNextState C st = (Throw e, st)).
Proof.
  intros Hc Em.
  assert (En : Model.getName C st = (Throw e, st))
    by (rewrite (getName_eq _ _ _ Hc), Em; reflexivity).
  split; [rewrite (new_eq _ _ _ _ Hc), Em; reflexivity|].
  split; [exact En|]. split; [|split].
  - unfold Model.getManyToManyModels, bind, loadClass. rewrite Hc, En.
    reflexivity.
  - unfold Model.addMutation, bind. rewrite En. reflexivity.
  - intros N. rewrite (getNextState_eq _ _ _ Hc), N, Em. reflexivity.
Qed.

(** X7: the plain accessor of a facade keeps the session, the id
    attribute and the model name its class had when the facade was
    built, and the value of [props].  A facade built while the class had
    no session therefore throws a TypeError on every assignment to a
    plain field, in any later store, connected or not. *)
Theorem plain_accessor_captures (C r : nat) st st' c m
  (props : list (string * value)) (i : Instance) (k : string)
  (fieldValue s : value) (idAttribute modelName : string) :
  Model.new C props st = (Ok r, st') ->
  classes st !! C = Some c ->
  metaOf c = Ok m ->
  instances st' !! r = Some i ->
  obj_get (accessors i) k =
    Some (PlainAccessor fieldValue s idAttribute modelName) ->
  s = _session c /\ idAttribute = Meta.idAttribute m /\
  modelName = Meta.name m /\ In (k, fieldValue) props /\
  (nullish (_session c) = true ->
   forall st2 (v : value),
     Model.PlainAccessor_set s idAttribute modelName r k v st2
       = (Throw TypeError, st2)).
Proof.
  intros H Hc Em Hi Hk.
  destruct (new_inv _ _ _ _ _ H) as (c' & m' & own & Hc' & Em' & Ea & -> & ->).
  assert (c' = c) by congruence. subst c'.
  assert (m' = m) by congruence. subst m'.
  simpl in Hi. rewrite lookup_snoc_new in Hi. inversion Hi; subst i.
  simpl in Hk. apply obj_get_Some_In in Hk.
  destruct (accessorsOf_inv _ _ _ _ Ea) as [Eo _]. rewrite Eo in Hk.
  assert (P : s = _session c /\ idAttribute = Meta.idAttribute m /\
              modelName = Meta.name m /\ In (k, fieldValue) props).
  { apply in_app_or in Hk. destruct Hk as [Hk|Hk].
    - apply in_map_iff in Hk. destruct Hk as (? & E & _). discriminate.
    - apply in_app_or in Hk. destruct Hk as [Hk|Hk].
      + apply in_map_iff in Hk. destruct Hk as ([k' v'] & E & Hp).
        inversion E; subst. apply filter_In in Hp.
        repeat split. exact (proj1 Hp).
      + apply in_map_iff in Hk. destruct Hk as (? & E & _). discriminate. }
  destruct P as (-> & -> & -> & Hp). repeat split; [exact Hp|].
  intros N st2 v. unfold Model.PlainAccessor_set, invoke. rewrite N.
  reflexivity.
Qed.

(** X8: a facade built from [props] can only [delete()] when [session]
    is the name of one of its fields: with no such property, declared
    field or virtual field, [delete()] throws a TypeError in every store
    that holds the facade and leaves that store as it is. *)
Theorem delete_new_throws (C r : nat) st st' c
  (props : list (string * value)) :
  Model.new C props st = (Ok r, st') ->
  classes st !! C = Some c ->
  ~ In "session" (keys props) ->
  ~ In "session" (keys (fields c)) ->
  ~ In "session" (keys (virtualFields c)) ->
  forall st2,
    instances st2 !! r = instances st' !! r ->
    Model.delete r st2 = (Throw TypeError, st2).
Proof.
  intros H Hc Np Nf Nv st2 Hi.
  destruct (new_inv _ _ _ _ _ H) as (c' & m & own & Hc' & Em & Ea & -> & ->).
  assert (c' = c) by congruence. subst c'.
  simpl in Hi. rewrite lookup_snoc_new in Hi.
  apply (delete_without_session _ _ _ Hi). simpl accessors.
  apply obj_get_None.
  destruct (accessorsOf_inv _ _ _ _ Ea) as [-> _].
  unfold keys at 1. rewrite !map_app, !map_map. simpl. intros Hin.
  apply in_app_or in Hin. destruct Hin as [Hin|Hin]; [contradiction|].
  apply in_app_or in Hin. destruct Hin as [Hin|Hin]; [|contradiction].
  apply Np. unfold keys. apply in_map_iff in Hin.
  destruct Hin as (p & E & Hp). apply filter_In in Hp.
  apply in_map_iff. exists p. split; [exact E | exact (proj1 Hp)].
Qed.


(** ** The class: [Meta] cache, reducer, frame *)

(** X9: once [getMetaInstance()] has returned a [Meta] instance, every
    later call returns the same one without changing the store, and
    [getName()] and [idAttribute] answer from it; the call itself leaves
    the session and the facades alone. *)
Theorem getMetaInstance_stable this st st' m :
  Model.getMetaInstance this st = (Ok m, st') ->
  Model.getMetaInstance this st' = (Ok m, st') /\
  Model.getName this st' = (Ok (Meta.name m), st') /\
  Model.idAttribute this st' = (Ok (Meta.idAttribute m), st') /\
  sessionObj st' = sessionObj st /\ instances st' = instances st.
Proof.
  intros H. destruct (classes st !! this) as [c|] eqn:Hc.
  - rewrite (getMetaInstance_eq _ _ _ Hc) in H.
    destruct (metaOf c) as [m'|e] eqn:Em; [|discriminate].
    inversion H; subst. pose proof (cached_lookup this c m st Hc) as Hc'.
    assert (E : Model.getMetaInstance this (cached this c m st)
                = (Ok m, cached this c m st)).
    { rewrite (getMetaInstance_eq _ _ _ Hc'), metaOf_withMeta, cached_idem.
      reflexivity. }
    split; [exact E|].
    unfold Model.getName, Model.idAttribute, bind. rewrite E.
    repeat split; reflexivity.
  - rewrite (getMetaInstance_missing _ _ Hc) in H. discriminate.
Qed.

Lemma getNextState_cached this c m st :
  classes st !! this = Some c ->
  metaOf c = Ok m ->
  nullish (_session c) = false ->
  Model.getNextState this (cached this c m st) = Model.getNextState this st.
Proof.
  intros Hc Em N.
  rewrite (getNextState_eq _ _ _ (cached_lookup this c m st Hc)),
    (getNextState_eq _ _ _ Hc), metaOf_withMeta, Em, cached_idem.
  change (_session (withMeta c m)) with (_session c). rewrite N.
  reflexivity.
Qed.

(** X10: with the default reducer, [callUserReducer()] returns what
    [getNextState()] returns and leaves the same store, whatever the
    action of the session is: the state and the action handed to the
    reducer are not used. *)
Theorem callUserReducer_default (actionOf : Session.t B -> value) this st :
  Model.callUserReducer actionOf this st = Model.getNextState this st.
Proof.
  unfold Model.callUserReducer, Model.reducer_default, bind at 1.
  destruct (classes st !! this) as [c|] eqn:Hc.
  - rewrite (state_eq _ _ _ Hc), (getNextState_eq _ _ _ Hc).
    destruct (nullish (_session c)) eqn:N; [reflexivity|].
    destruct (metaOf c) as [m|e] eqn:Em; [|reflexivity].
    pose proof (cached_lookup this c m st Hc) as Hc'.
    destruct (_session c) eqn:Es; try reflexivity; try discriminate.
    unfold bind. rewrite (session_eq _ _ _ Hc').
    change (_session (withMeta c m)) with (_session c). rewrite Es.
    rewrite (session_eq _ _ _ Hc').
    rewrite (getNextState_cached _ _ _ _ Hc Em) by (rewrite Es; reflexivity).
    rewrite (getNextState_eq _ _ _ Hc), Em, Es. reflexivity.
  - rewrite (getNextState_missing _ _ Hc).
    unfold Model.state, Model.session. unfold_M. rewrite Hc. reflexivity.
Qed.

(** X11: [getNextState()] only reads the session: the log, the current
    branches and the facades are the same afterwards, and so is every
    other class; the class itself keeps its session and its fields. *)
Theorem getNextState_frame this st :
  sessionObj (snd (Model.getNextState this st)) = sessionObj st /\
  instances (snd (Model.getNextState this st)) = instances st /\
  (forall that, that <> this ->
     classes (snd (Model.getNextState this st)) !! that = classes st !! that) /\
  (forall c, classes st !! this = Some c ->
     exists c',
       classes (snd (Model.getNextState this st)) !! this = Some c' /\
       _session c' = _session c /\ fields c' = fields c /\
       virtualFields c' = virtualFields c).
Proof.
  destruct (classes st !! this) as [c|] eqn:Hc.
  - assert (K : forall m,
      sessionObj (cached this c m st) = sessionObj st /\
      instances (cached this c m st) = instances st /\
      (forall that, that <> this ->
         classes (cached this c m st) !! that = classes st !! that) /\
      (forall c0, Some c = Some c0 ->
         exists c', classes (cached this c m st) !! this = Some c' /\
           _session c' = _session c0 /\ fields c' = fields c0 /\
           virtualFields c' = virtualFields c0)).
    { intros m. split; [reflexivity|]. split; [reflexivity|]. split.
      - intros that N. apply list_lookup_insert_ne. congruence.
      - intros c0 E. inversion E; subst c0. exists (withMeta c m).
        split; [apply cached_lookup, Hc|]. repeat split; reflexivity. }
    assert (K0 :
      sessionObj st = sessionObj st /\ instances st = instances st /\
      (forall that, that <> this -> classes st !! that = classes st !! that) /\
      (forall c0, Some c = Some c0 ->
         exists c', classes st !! this = Some c' /\
           _session c' = _session c0 /\ fields c' = fields c0 /\
           virtualFields c' = virtualFields c0)).
    { repeat split; try reflexivity. intros c0 E. inversion E; subst c0.
      exists c. repeat split; [exact Hc|..]; reflexivity. }
    rewrite (getNextState_eq _ _ _ Hc).
    destruct (nullish (_session c)); [exact K0|].
    destruct (metaOf c) as [m|e]; [|exact K0].
    destruct (_session c); try apply K.
    destruct (Session.getState _ _); apply K.
  - rewrite (getNextState_missing _ _ Hc). simpl.
    repeat split; try reflexivity. intros c E. discriminate.
Qed.

Lemma reduce_unknown m (l : list Mutation) : forall S0 : B,
  Forall (fun a => type a <> VStr CREATE /\ type a <> VStr UPDATE /\
                   type a <> VStr DELETE) l ->
  reduce (Model.reducer m) l S0 = Ok S0.
Proof.
  induction l as [|a l IH]; intros S0 F; simpl; [reflexivity|].
  inversion F as [|? ? (NC & NU & ND) F']; subst.
  unfold Model.reducer at 1.
  rewrite (strict_eq_false _ _ NC), (strict_eq_false _ _ NU),
    (strict_eq_false _ _ ND).
  apply IH, F'.
Qed.

(** X12: when the log holds no record for the model, or only records
    whose type is none of the three tags, [getNextState()] returns the
    current state itself. *)
Theorem getNextState_no_effective_record this st st' m (S0 : B) :
  Model.state this st = (Ok (Some S0), st') ->
  Model.getMetaInstance this st = (Ok m, st') ->
  Forall (fun a => type a <> VStr CREATE /\ type a <> VStr UPDATE /\
                   type a <> VStr DELETE)
         (Session.getMutationsFor (sessionObj st) (Meta.name m)) ->
  Model.getNextState this st = (Ok S0, st').
Proof.
  intros H Hm F.
  destruct (state_inv _ _ _ _ H) as (c & m' & Hc & Es & Em & -> & Eg).
  rewrite (getMetaInstance_eq _ _ _ Hc), Em in Hm. inversion Hm; subst m'.
  rewrite (getNextState_eq _ _ _ Hc), Em, Es, <- Eg. simpl.
  rewrite (reduce_unknown _ _ _ F). reflexivity.
Qed.

(** X13: an Update record with no payload makes [getNextState()] throw a
    TypeError when the fold reaches it ([action.payload.idArr] is read
    from [undefined] or [null]); the records after it are not applied. *)
Theorem getNextState_update_without_payload this st st' m (S0 S1 : B)
  (before after : list Mutation) (action : Mutation) :
  CREATE <> UPDATE ->
  Model.state this st = (Ok (Some S0), st') ->
  Model.getMetaInstance this st = (Ok m, st') ->
  Session.getMutationsFor (sessionObj st) (Meta.name m) =
    before ++ action :: after ->
  reduce (Model.reducer m) before S0 = Ok S1 ->
  type action = VStr UPDATE ->
  nullish (payload action) = true ->
  Model.getNextState this st = (Throw TypeError, st').
Proof.
  intros CU H Hm Hl Hb Ht Hp.
  destruct (state_inv _ _ _ _ H) as (c & m' & Hc & Es & Em & -> & Eg).
  rewrite (getMetaInstance_eq _ _ _ Hc), Em in Hm. inversion Hm; subst m'.
  rewrite (getNextState_eq _ _ _ Hc), Em, Es, <- Eg. simpl.
  rewrite Hl, reduce_app, Hb. simpl. unfold Model.reducer at 1.
  rewrite Ht, !strict_eq_VStr.
  rewrite decide_False by congruence. rewrite decide_True by reflexivity.
  destruct (payload action); try discriminate; reflexivity.
Qed.


(** ** Appending a record and folding it *)

Lemma getMutationsFor_append (s s' : Session.t B) (mutation : Mutation)
  (entityName : string) :
  Session.mutations s' = Session.mutations s ++ [mutation] ->
  Session.targetEntityName mutation = VStr entityName ->
  Session.getMutationsFor s' entityName =
  Session.getMutationsFor s entityName ++ [mutation].
Proof.
  intros L T. unfold Session.getMutationsFor. rewrite L.
  rewrite List.filter_app. simpl. rewrite T. simpl.
  rewrite String.eqb_refl. reflexivity.
Qed.

(** The next state once a record for the model was appended: one more
    step of the fold. *)
Lemma getNextState_after_append this c m st (mutation : Mutation) (S0 : B) :
  classes st !! this = Some c ->
  _session c = VSession ->
  metaOf c = Ok m ->
  Session.getState (sessionObj st) (Meta.name m) = Some S0 ->
  Session.known (sessionObj st) (VStr (Meta.name m)) = true ->
  Session.status (sessionObj st) = Session.Open ->
  Session.targetEntityName mutation = VStr (Meta.name m) ->
  exists st1,
    Session_addMutation mutation (cached this c m st) = (Ok tt, st1) /\
    instances st1 = instances st /\
    Session.mutations (sessionObj st1) =
      Session.mutations (sessionObj st) ++ [mutation] /\
    fst (Model.getNextState this st1) =
      match fst (Model.getNextState this st) with
      | Ok S1 => Model.reducer m S1 mutation
      | Throw e => Throw e
      end.
Proof.
  intros Hc Es Em Eg K O T.
  unfold Session_addMutation, Session.addMutation. simpl sessionObj.
  rewrite T, K, O. simpl. eexists. split; [reflexivity|].
  split; [reflexivity|]. split; [reflexivity|].
  set (st1 := mkStore _ _ _).
  assert (Hc1 : classes st1 !! this = Some (withMeta c m))
    by apply (cached_lookup this c m st Hc).
  rewrite (getNextState_eq _ _ _ Hc1), (getNextState_eq _ _ _ Hc).
  rewrite metaOf_withMeta, Em.
  change (_session (withMeta c m)) with (_session c). rewrite Es.
  change (nullish VSession) with false. cbv beta iota.
  change (Session.getState (sessionObj st1) (Meta.name m))
    with (Session.getState (sessionObj st) (Meta.name m)).
  rewrite Eg.
  rewrite (getMutationsFor_append (sessionObj st) (sessionObj st1) mutation
             _ eq_refl T), reduce_app.
  simpl fst. destruct (reduce _ _ S0) as [S1|e]; simpl; [|reflexivity].
  destruct (Model.reducer m S1 mutation); reflexivity.
Qed.

(** X14: [C.addMutation(mutation)] on a connected class appends one
    record, retargeted at the class whatever [meta] the caller wrote,
    and the next [getNextState()] is the previous one followed by the
    step of the fold for that record. *)
Theorem addMutation_extends_fold this c m st (mutation : Mutation) (S0 : B) :
  classes st !! this = Some c ->
  _session c = VSession ->
  metaOf c = Ok m ->
  Session.getState (sessionObj st) (Meta.name m) = Some S0 ->
  Session.known (sessionObj st) (VStr (Meta.name m)) = true ->
  Session.status (sessionObj st) = Session.Open ->
  exists st1,
    Model.addMutation this mutation st = (Ok tt, st1) /\
    Session.mutations (sessionObj st1) =
      Session.mutations (sessionObj st) ++
      [mkMutation (type mutation) (payload mutation)
                  (VObj [("name", VStr (Meta.name m))])] /\
    fst (Model.getNextState this st1) =
      match fst (Model.getNextState this st) with
      | Ok S1 => Model.reducer m S1 mutation
      | Throw e => Throw e
      end.
Proof.
  intros Hc Es Em Eg K O.
  rewrite (addMutation_eq _ _ _ _ _ Hc Es Em).
  destruct (getNextState_after_append this c m st
              (mkMutation (type mutation) (payload mutation)
                          (VObj [("name", VStr (Meta.name m))]))
              S0 Hc Es Em Eg K O eq_refl) as (st1 & E & _ & L & F).
  exists st1. split; [exact E|]. split; [exact L|]. exact F.
Qed.

(** X15: after [update(mergeObj)] on a facade, the next
    [getNextState()] of its class is the previous one followed by
    [meta.update] for the id of the facade with [mergeObj]: the update is
    part of the derived branch. *)
Theorem update_visible self (i : Instance) c m st (mergeObj : value) (S0 : B) :
  CREATE <> UPDATE ->
  instances st !! self = Some i ->
  classes st !! constructor i = Some c ->
  _session c = VSession ->
  metaOf c = Ok m ->
  Session.getState (sessionObj st) (Meta.name m) = Some S0 ->
  Session.known (sessionObj st) (VStr (Meta.name m)) = true ->
  Session.status (sessionObj st) = Session.Open ->
  exists st1,
    Model.update self mergeObj st = (Ok tt, st1) /\
    fst (Model.getNextState (constructor i) st1) =
      match fst (Model.getNextState (constructor i) st) with
      | Ok S1 =>
          Meta.update m S1 (VArr [index (_fields i) (Meta.idAttribute m)])
                      mergeObj
      | Throw e => Throw e
      end.
Proof.
  intros CU Hi Hc Es Em Eg K O.
  rewrite (update_eq _ _ _ _ _ _ Hi Hc Es Em).
  destruct (getNextState_after_append (constructor i) c m st
              (mkMutation (VStr UPDATE)
                 (VObj [("idArr", VArr [index (_fields i) (Meta.idAttribute m)]);
                        ("updater", mergeObj)])
                 (VObj [("name", VStr (Meta.name m))]))
              S0 Hc Es Em Eg K O eq_refl) as (st1 & E & _ & _ & F).
  exists st1. split; [exact E|]. rewrite F.
  destruct (fst (Model.getNextState (constructor i) st)); [|reflexivity].
  unfold Model.reducer. simpl type. rewrite !strict_eq_VStr.
  rewrite decide_False by congruence. rewrite decide_True by reflexivity.
  reflexivity.
Qed.

(** X16: after an assignment through the plain accessor of a field, the
    facade is unchanged and the next [getNextState()] of its class is the
    previous one followed by [meta.update(state, undefined, undefined)]:
    the record carries the id and the value where the fold does not read
    them.  The field and the id attribute are not named [idArr] or
    [updater]. *)
Theorem plain_assignment_fold self (i : Instance) c m st
  (idAttribute fieldName : string) (v : value) (S0 : B) :
  CREATE <> UPDATE ->
  idAttribute <> "idArr" -> idAttribute <> "updater" ->
  fieldName <> "idArr" -> fieldName <> "updater" ->
  instances st !! self = Some i ->
  classes st !! constructor i = Some c ->
  _session c = VSession ->
  metaOf c = Ok m ->
  Session.getState (sessionObj st) (Meta.name m) = Some S0 ->
  Session.known (sessionObj st) (VStr (Meta.name m)) = true ->
  Session.status (sessionObj st) = Session.Open ->
  exists st1,
    Model.PlainAccessor_set VSession idAttribute (Meta.name m) self fieldName v st
      = (Ok tt, st1) /\
    instances st1 = instances st /\
    fst (Model.getNextState (constructor i) st1) =
      match fst (Model.getNextState (constructor i) st) with
      | Ok S1 => Meta.update m S1 VUndefined VUndefined
      | Throw e => Throw e
      end.
Proof.
  intros CU N1 N2 N3 N4 Hi Hc Es Em Eg K O.
  rewrite (PlainAccessor_set_eq _ _ _ _ _ _ _ _ _ Hi Hc Em).
  destruct (getNextState_after_append (constructor i) c m st
              (mkMutation (VStr UPDATE)
                 (VObj (obj_literal
                    [(idAttribute, index (_fields i) (Meta.idAttribute m));
                     (fieldName, v)]))
                 (VObj [("name", VStr (Meta.name m))]))
              S0 Hc Es Em Eg K O eq_refl) as (st1 & E & I & _ & F).
  exists st1. split; [exact E|]. split; [exact I|]. rewrite F.
  destruct (fst (Model.getNextState (constructor i) st)); [|reflexivity].
  apply reducer_plain_record; assumption.
Qed.

(** ** Connecting *)


(** X18: connecting again replaces the session: after [connect(x)] and
    [connect(y)] the store is the one [connect(y)] alone gives, and the
    class keeps its [Meta] instance and its fields. *)
Theorem connect_rebinds this (x y : value) c st :
  classes st !! this = Some c ->
  Model.connect this y (snd (Model.connect this x st)) = Model.connect this y st /\
  exists c',
    classes (snd (Model.connect this y st)) !! this = Some c' /\
    _session c' = y /\ _meta c' = _meta c /\ fields c' = fields c.
Proof.
  intros Hc. rewrite (connect_eq _ x _ _ Hc). simpl snd.
  rewrite (connect_eq this y c st Hc).
  assert (Hl : (this < length (classes st))%nat)
    by (eapply lookup_lt_Some; eassumption).
  split.
  - rewrite (connect_eq this y (withSession c x)).
    + simpl. rewrite list_insert_insert_eq. reflexivity.
    + simpl. apply list_lookup_insert_eq. exact Hl.
  - exists (withSession c y). simpl.
    split; [apply list_lookup_insert_eq; exact Hl|]. repeat split; reflexivity.
Qed.


(** ** [equals] as a relation *)

Lemma strict_eq_sym (x y : value) : strict_eq x y = strict_eq y x.
Proof.
  destruct x, y; simpl; try reflexivity.
  - destruct b, b0; reflexivity.
  - apply Z.eqb_sym.
  - apply String.eqb_sym.
Qed.

(** [a.equals(b)] in closed form, for two facades of the store. *)
Lemma equals_eq self otherModel (i j : Instance) st :
  instances st !! self = Some i ->
  instances st !! otherModel = Some j ->
  Model.equals self otherModel st =
    if Nat.eqb (constructor i) (constructor j) then
      match classes st !! constructor i with
      | None => (Throw ReferenceError, st)
      | Some c =>
          match metaOf c with
          | Throw e => (Throw e, st)
          | Ok m =>
              (Ok (strict_eq (index (_fields i) (Meta.idAttribute m))
                             (index (_fields j) (Meta.idAttribute m))),
               cached (constructor i) c m st)
          end
      end
    else (Ok false, st).
Proof.
  intros Hi Hj. unfold Model.equals, bind at 1 2.
  rewrite (getClass_eq _ _ _ Hi), (getClass_eq _ _ _ Hj).
  destruct (Nat.eqb (constructor i) (constructor j)) eqn:E; [|reflexivity].
  apply Nat.eqb_eq in E.
  destruct (classes st !! constructor i) as [c|] eqn:Hc.
  - unfold bind. rewrite (getId_eq _ _ _ _ Hi Hc).
    destruct (metaOf c) as [m|e] eqn:Em; [|reflexivity].
    assert (Hj' : instances (cached (constructor i) c m st) !! otherModel
                  = Some j) by exact Hj.
    assert (Hc2 : classes (cached (constructor i) c m st) !! constructor j
                  = Some (withMeta c m))
      by (rewrite <- E; apply cached_lookup, Hc).
    rewrite (getId_eq _ _ _ _ Hj' Hc2), metaOf_withMeta, <- E, cached_idem.
    reflexivity.
  - unfold bind, Model.getId, bind, loadInstance. rewrite Hi.
    rewrite (getClass_eq _ _ _ Hi), (getMetaInstance_missing _ _ Hc).
    reflexivity.
Qed.

Lemma equals_missing_l self otherModel st :
  instances st !! self = None ->
  Model.equals self otherModel st = (Throw ReferenceError, st).
Proof.
  intros H. unfold Model.equals, Model.getClass. unfold_M. rewrite H.
  reflexivity.
Qed.

Lemma equals_missing_r self otherModel (i : Instance) st :
  instances st !! self = Some i ->
  instances st !! otherModel = None ->
  Model.equals self otherModel st = (Throw ReferenceError, st).
Proof.
  intros Hi H. unfold Model.equals, Model.getClass. unfold_M. rewrite Hi, H.
  reflexivity.
Qed.

(** X19: [a.equals(b)] and [b.equals(a)] give the same answer, or the
    same error, and leave the same store. *)
Theorem equals_symmetric self otherModel st :
  Model.equals self otherModel st = Model.equals otherModel self st.
Proof.
  destruct (instances st !! self) as [i|] eqn:Hi;
    destruct (instances st !! otherModel) as [j|] eqn:Hj.
  - rewrite (equals_eq _ _ _ _ _ Hi Hj), (equals_eq _ _ _ _ _ Hj Hi).
    rewrite (Nat.eqb_sym (constructor j)).
    destruct (Nat.eqb (constructor i) (constructor j)) eqn:E; [|reflexivity].
    apply Nat.eqb_eq in E. rewrite <- E.
    destruct (classes st !! constructor i) as [c|]; [|reflexivity].
    destruct (metaOf c) as [m|e]; [|reflexivity].
    rewrite strict_eq_sym. reflexivity.
  - rewrite (equals_missing_r _ _ _ _ Hi Hj), (equals_missing_l _ _ _ Hj).
    reflexivity.
  - rewrite (equals_missing_l _ _ _ Hi), (equals_missing_r _ _ _ _ Hj Hi).
    reflexivity.
  - rewrite !equals_missing_l by assumption. reflexivity.
Qed.

Lemma equals_true_inv self otherModel st :
  fst (Model.equals self otherModel st) = Ok true ->
  exists i j c m,
    instances st !! self = Some i /\ instances st !! otherModel = Some j /\
    constructor i = constructor j /\
    classes st !! constructor i = Some c /\ metaOf c = Ok m /\
    strict_eq (index (_fields i) (Meta.idAttribute m))
              (index (_fields j) (Meta.idAttribute m)) = true.
Proof.
  intros H.
  destruct (instances st !! self) as [i|] eqn:Hi;
    [|rewrite (equals_missing_l _ _ _ Hi) in H; discriminate].
  destruct (instances st !! otherModel) as [j|] eqn:Hj;
    [|rewrite (equals_missing_r _ _ _ _ Hi Hj) in H; discriminate].
  rewrite (equals_eq _ _ _ _ _ Hi Hj) in H.
  destruct (Nat.eqb (constructor i) (constructor j)) eqn:E; [|discriminate].
  apply Nat.eqb_eq in E.
  destruct (classes st !! constructor i) as [c|] eqn:Hc; [|discriminate].
  destruct (metaOf c) as [m|e] eqn:Em; [|discriminate].
  simpl in H. inversion H as [H'].
  exists i, j, c, m. repeat split; assumption.
Qed.

(** X20: when [a.equals(b)] and [b.equals(c)] are true in a store, so is
    [a.equals(c)]. *)
Theorem equals_transitive (a b c : nat) st :
  fst (Model.equals a b st) = Ok true ->
  fst (Model.equals b c st) = Ok true ->
  fst (Model.equals a c st) = Ok true.
Proof.
  intros Hab Hbc.
  destruct (equals_true_inv _ _ _ Hab)
    as (i & j & ca & m & Hi & Hj & Eij & Hca & Em & Tij).
  destruct (equals_true_inv _ _ _ Hbc)
    as (j' & k & cb & m' & Hj' & Hk & Ejk & Hcb & Em' & Tjk).
  assert (j' = j) by congruence. subst j'.
  rewrite <- Eij in Hcb. assert (cb = ca) by congruence. subst cb.
  assert (m' = m) by congruence. subst m'.
  rewrite (equals_eq _ _ _ _ _ Hi Hk).
  replace (Nat.eqb (constructor i) (constructor k)) with true
    by (symmetry; apply Nat.eqb_eq; congruence).
  rewrite Hca, Em. simpl. f_equal.
  apply strict_eq_true in Tjk. rewrite <- Tjk. exact Tij.
Qed.

(** ** Through models of through models *)

(** X21: a through model declares foreign keys only:
    [getManyToManyModels()] on a class with the fields of a through model
    returns no model, the synthesis stops after one level. *)
Theorem ThroughModel_no_through this st st' c m
  (thisModelName relatedModelName fieldName : string) :
  classes st !! this = Some c ->
  fields c =
    fields (Model.ThroughModel thisModelName relatedModelName fieldName) ->
  Model.getMetaInstance this st = (Ok m, st') ->
  Model.getManyToManyModels this st = (Ok [], st').
Proof.
  intros Hc Ef Hm.
  unfold Model.getManyToManyModels, Model.getName, bind, loadClass.
  rewrite Hc, Hm, Ef. unfold ret. do 2 f_equal.
  unfold Model.ThroughModel, obj_literal. simpl.
  destruct (String.eqb (m2mFromFieldName thisModelName)
                       (m2mToFieldName relatedModelName)); reflexivity.
Qed.

End Properties.

(** * The example store *)

(** C1 on the example: [Person] has no current state, the log holds the
    Create record of [alice]; the specification's next state holds the
    row, [getNextState()] returns the empty branch. *)
Lemma getNextState_undefined_state_drops_creates :
  Model.state 0%nat Example.created = (Ok None, Example.created) /\
  Session.getMutationsFor (sessionObj Example.created) "Person" =
    map (Spec.toMutation "Person") [Spec.Create (VObj Example.alice)] /\
  Spec.getNextState (Branch.meta (mkMetaOptions "Person" None)) None
    [Spec.Create (VObj Example.alice)] = Ok Example.people /\
  fst (Model.getNextState 0%nat Example.created) = Ok Branch.defaultState /\
  fst (Model.getNextState 0%nat Example.created) <>
    Spec.getNextState (Branch.meta (mkMetaOptions "Person" None)) None
      [Spec.Create (VObj Example.alice)].
Proof.
  repeat split; try reflexivity.
  vm_compute. discriminate.
Qed.

(** C2 on the example: [alice] is a facade of the row with id 1 and
    [name] is a plain field.  The assignment [alice.name = "c"] leaves
    the facade as it is and appends one Update record for [Person], but
    the record holds the id and the value at the top of its payload,
    where [getNextState()] does not look: the derived branch still has
    the old name.  The same assignment through [set] is visible. *)
Theorem plain_assignment_not_visible :
  (instances Example.withPeople !! 0%nat) ≫= (fun i => obj_get (accessors i) "name")
    = Some (PlainAccessor (VStr "a") VSession "id" "Person") /\
  Model.PlainAccessor_set VSession "id" "Person" 0%nat "name" (VStr "c")
    Example.withPeople = (Ok tt, Example.assigned) /\
  instances Example.assigned = instances Example.withPeople /\
  Session.mutations (sessionObj Example.assigned) =
    [mkMutation (VStr UPDATE)
       (VObj [("id", VNum 1); ("name", VStr "c")])
       (VObj [("name", VStr "Person")])] /\
  fst (Model.getNextState 0%nat Example.assigned) = Ok Example.people /\
  fst (Model.getNextState 0%nat
         (snd (Model.set 0%nat "name" (VStr "c") Example.withPeople))) =
    Ok (Branch.mk [VNum 1]
          [(VNum 1, VObj [("id", VNum 1); ("name", VStr "c")])] 2).
Proof. repeat split; reflexivity. Qed.

(** C7 on the example: [alice.delete()] throws a TypeError and appends
    nothing, the facade has no property [session]. *)
Theorem delete_throws :
  Model.delete 0%nat Example.withPeople = (Throw TypeError, Example.withPeople) /\
  Session.mutations (sessionObj Example.withPeople) = [].
Proof. split; reflexivity. Qed.

(** [Person] has no current state and one Create record in the log: the
    next state is the default state. *)
Lemma getNextState_undefined_state_witness :
  exists m,
    Model.getMetaInstance 0%nat Example.created = (Ok m, Example.created) /\
    Model.getNextState 0%nat Example.created =
      (Ok (Meta.getDefaultState m), Example.created).
Proof.
  apply (getNextState_undefined_state 0%nat Example.created Example.created).
  reflexivity.
Defined.

(** The three tags of the example are distinct. *)
Lemma example_tags_distinct : NoDup [CREATE; UPDATE; DELETE].
Proof. apply (bool_decide_unpack _). vm_compute. exact I. Defined.

(** The next state of [Person] after the edits is their fold over
    [people], the record for [Book] is left out. *)
Lemma getNextState_folds_log_witness :
  Model.getNextState 0%nat Example.edited =
    (Spec.fold Example.PersonMeta Example.people Example.edits, Example.edited).
Proof.
  apply (getNextState_folds_log 0%nat Example.edited Example.edited
           Example.PersonMeta Example.people Example.edits).
  - exact example_tags_distinct.
  - reflexivity.
  - reflexivity.
  - reflexivity.
Defined.

(** With or without the record for [Book] in the log, [Person] has the
    same next state; a second run returns it again. *)
Lemma getNextState_deterministic_witness :
  fst (Model.getNextState 0%nat Example.edited) =
    fst (Model.getNextState 0%nat Example.editedPersonOnly) /\
  Model.getNextState 0%nat (snd (Model.getNextState 0%nat Example.edited)) =
    Model.getNextState 0%nat Example.edited.
Proof.
  apply (getNextState_deterministic 0%nat 0%nat Example.edited
           Example.editedPersonOnly Example.PersonClass Example.PersonClass
           Example.PersonMeta Example.people); reflexivity.
Defined.

(** A record tagged [ARCHIVE] leaves [people] as it is. *)
Lemma reducer_unknown_type_witness :
  Model.reducer Example.PersonMeta Example.people
    (mkMutation (VStr "ARCHIVE") (VArr [VNum 1])
                (VObj [("name", VStr "Person")])) = Ok Example.people.
Proof.
  apply (reducer_unknown_type Example.PersonMeta Example.people);
    simpl; discriminate.
Defined.

(** [Person.connect(5)] is accepted. *)
Lemma connect_accepts_truthy_witness :
  exists st',
    Model.connect 0%nat (VNum 5) (Example.emptyStore ∅) = (Ok tt, st') /\
    Model.session 0%nat st' = (Ok (VNum 5), st') /\
    sessionObj st' = sessionObj (Example.emptyStore ∅) /\
    instances st' = instances (Example.emptyStore ∅).
Proof.
  apply (connect_accepts_truthy 0%nat (VNum 5) Example.Person
           (Example.emptyStore ∅)); reflexivity.
Defined.

(** [alice.update({name: 'c', age: 3})] and [alice.set('name', 'c')] on
    an empty log. *)
Lemma set_update_append_one_witness :
  (exists st',
     Model.update 0%nat (VObj [("name", VStr "c"); ("age", VNum 3)])
       Example.withPeople = (Ok tt, st') /\
     Session.mutations (sessionObj st') =
       [mkMutation (VStr UPDATE)
          (VObj [("idArr", VArr [VNum 1]);
                 ("updater", VObj [("name", VStr "c"); ("age", VNum 3)])])
          (VObj [("name", VStr "Person")])]) /\
  (exists st',
     Model.set 0%nat "name" (VStr "c") Example.withPeople = (Ok tt, st') /\
     Session.mutations (sessionObj st') =
       [mkMutation (VStr UPDATE)
          (VObj [("idArr", VArr [VNum 1]);
                 ("updater", VObj [("name", VStr "c")])])
          (VObj [("name", VStr "Person")])]).
Proof.
  pose proof (set_update_append_one 0%nat Example.aliceFacade
                Example.PersonClass Example.PersonMeta Example.withPeople
                eq_refl eq_refl eq_refl eq_refl eq_refl eq_refl) as [U W].
  split.
  - exact (U (VObj [("name", VStr "c"); ("age", VNum 3)])).
  - exact (W "name" (VStr "c")).
Defined.

(** The two facades of row 1 are equal, their names differ. *)
Lemma equals_iff_witness :
  exists b st',
    Model.equals 0%nat 1%nat Example.twoFacades = (Ok b, st') /\
    (b = true <-> 0%nat = 0%nat /\ VNum 1 = VNum 1).
Proof.
  apply (equals_iff 0%nat 1%nat Example.aliceFacade Example.otherFacade
           Example.PersonClass Example.PersonClass
           Example.PersonMeta Example.PersonMeta Example.twoFacades);
    reflexivity.
Defined.

(** The two through models of [Book]. *)
Lemma getManyToManyModels_through_witness :
  exists models,
    Model.getManyToManyModels 1%nat Example.withPeople =
      (Ok models, cached 1%nat Example.BookClass Example.BookMeta
                    Example.withPeople) /\
    Forall2
      (fun f (T : ModelClass Branch.t) =>
         exists related,
           snd f = ManyToMany related /\
           let relatedModelName :=
             if decide (related = "this") then "Book" else related in
           getMetaOptions T = Ok (mkMetaOptions (m2mName "Book" (fst f)) None) /\
           fields T = [(m2mFromFieldName "Book", ForeignKey "Book");
                       (m2mToFieldName relatedModelName,
                        ForeignKey relatedModelName)])
      [("authors", ManyToMany "Person"); ("sequels", ManyToMany "this")]
      models.
Proof.
  apply (getManyToManyModels_through 1%nat Example.withPeople
           (cached 1%nat Example.BookClass Example.BookMeta Example.withPeople)
           Example.BookClass Example.BookMeta).
  - intros a b E. vm_compute in E. discriminate E.
  - reflexivity.
  - reflexivity.
Defined.

(** ** Further properties on the example store *)





(** The [name] of the facade of [zoe]. *)
Lemma get_plain_new_witness : Model.get Example.otherFacade "name" = VStr "z".
Proof.
  apply (get_plain_new 0%nat 1%nat Example.withPeople Example.twoFacades
           Example.PersonClass Example.zoe Example.otherFacade "name" (VStr "z")).
  - reflexivity.
  - reflexivity.
  - reflexivity.
  - simpl. right. left. reflexivity.
  - simpl. intros [].
Defined.


(** [Model] itself declares no options. *)
Lemma meta_error_propagates_witness :
  Model.new 1%nat Example.alice Example.others
    = (Throw Example.undeclared, Example.others) /\
  Model.getName 1%nat Example.others
    = (Throw Example.undeclared, Example.others) /\
  Model.getManyToManyModels 1%nat Example.others
    = (Throw Example.undeclared, Example.others) /\
  Model.addMutation 1%nat (mkMutation (VStr CREATE) (VObj Example.alice) VUndefined)
    Example.others = (Throw Example.undeclared, Example.others) /\
  (nullish (_session (Model.base (B:=Branch.t))) = false ->
   Model.getNextState 1%nat Example.others
     = (Throw Example.undeclared, Example.others)).
Proof.
  apply (meta_error_propagates 1%nat Model.base Example.others); reflexivity.
Defined.

(** The facade of [alice] built before [Person.connect]. *)
Lemma plain_accessor_captures_witness :
  VUndefined = _session Example.Person /\
  "id" = Meta.idAttribute Example.PersonMeta /\
  "Person" = Meta.name Example.PersonMeta /\
  In ("name", VStr "a") Example.alice /\
  (nullish (_session Example.Person) = true ->
   forall st2 (v : value),
     Model.PlainAccessor_set VUndefined "id" "Person" 0%nat "name" v st2
       = (Throw TypeError, st2)).
Proof.
  apply (plain_accessor_captures 0%nat 0%nat
           (Example.emptyStore {["Person" := Example.people]}) Example.early
           Example.Person Example.PersonMeta Example.alice Example.earlyFacade
           "name" (VStr "a") VUndefined "id" "Person"); reflexivity.
Defined.

(** [alice.delete()] after the edits. *)
Lemma delete_new_throws_witness :
  Model.delete 0%nat Example.edited = (Throw TypeError, Example.edited).
Proof.
  apply (delete_new_throws 0%nat 0%nat
           (Example.connected {["Person" := Example.people]}) Example.withPeople
           (withSession Example.Person VSession) Example.alice).
  - reflexivity.
  - reflexivity.
  - simpl. intros [E|[E|[]]]; discriminate E.
  - simpl. intros [].
  - simpl. intros [].
  - reflexivity.
Defined.

(** The [Meta] instance of [Book], built on the first call. *)
Lemma getMetaInstance_stable_witness :
  Model.getMetaInstance 1%nat Example.withBookMeta
    = (Ok Example.BookMeta, Example.withBookMeta) /\
  Model.getName 1%nat Example.withBookMeta = (Ok "Book", Example.withBookMeta) /\
  Model.idAttribute 1%nat Example.withBookMeta
    = (Ok "id", Example.withBookMeta) /\
  sessionObj Example.withBookMeta = sessionObj Example.withPeople /\
  instances Example.withBookMeta = instances Example.withPeople.
Proof.
  apply (getMetaInstance_stable 1%nat Example.withPeople Example.withBookMeta
           Example.BookMeta).
  reflexivity.
Defined.

(** [Person.getNextState()] after the edits touches the cache only. *)
Lemma getNextState_frame_witness :
  sessionObj (snd (Model.getNextState 0%nat Example.edited))
    = sessionObj Example.edited /\
  instances (snd (Model.getNextState 0%nat Example.edited))
    = instances Example.edited /\
  (forall that, that <> 0%nat ->
     classes (snd (Model.getNextState 0%nat Example.edited)) !! that
       = classes Example.edited !! that) /\
  (forall c, classes Example.edited !! 0%nat = Some c ->
     exists c',
       classes (snd (Model.getNextState 0%nat Example.edited)) !! 0%nat
         = Some c' /\
       _session c' = _session c /\ fields c' = fields c /\
       virtualFields c' = virtualFields c).
Proof. exact (getNextState_frame 0%nat Example.edited). Defined.

(** A record tagged [ARCHIVE] is all the log holds for [Person]. *)
Lemma getNextState_no_effective_record_witness :
  Model.getNextState 0%nat Example.archived =
    (Ok Example.people, Example.archived).
Proof.
  apply (getNextState_no_effective_record 0%nat Example.archived
           Example.archived Example.PersonMeta Example.people).
  - reflexivity.
  - reflexivity.
  - vm_compute. repeat constructor; intros E; discriminate E.
Defined.

(** An Update record with no payload is all the log holds. *)
Lemma getNextState_update_without_payload_witness :
  Model.getNextState 0%nat Example.broken = (Throw TypeError, Example.broken).
Proof.
  apply (getNextState_update_without_payload 0%nat Example.broken
           Example.broken Example.PersonMeta Example.people Example.people
           [] [] (mkMutation (VStr UPDATE) VUndefined
                             (VObj [("name", VStr "Person")]))).
  - intros E. discriminate E.
  - reflexivity.
  - reflexivity.
  - reflexivity.
  - reflexivity.
  - reflexivity.
  - reflexivity.
Defined.

(** [Person.addMutation] of a Create record for [bob]. *)
Lemma addMutation_extends_fold_witness :
  exists st1,
    Model.addMutation 0%nat
      (mkMutation (VStr CREATE) (VObj Example.bob) VUndefined)
      Example.withPeople = (Ok tt, st1) /\
    Session.mutations (sessionObj st1) =
      Session.mutations (sessionObj Example.withPeople) ++
      [mkMutation (VStr CREATE) (VObj Example.bob)
                  (VObj [("name", VStr "Person")])] /\
    fst (Model.getNextState 0%nat st1) =
      match fst (Model.getNextState 0%nat Example.withPeople) with
      | Ok S1 =>
          Model.reducer Example.PersonMeta S1
            (mkMutation (VStr CREATE) (VObj Example.bob) VUndefined)
      | Throw e => Throw e
      end.
Proof.
  apply (addMutation_extends_fold 0%nat Example.PersonClass Example.PersonMeta
           Example.withPeople
           (mkMutation (VStr CREATE) (VObj Example.bob) VUndefined)
           Example.people); reflexivity.
Defined.

(** [alice.update({name: 'c'})] and the next state of [Person]. *)
Lemma update_visible_witness :
  exists st1,
    Model.update 0%nat (VObj [("name", VStr "c")]) Example.withPeople
      = (Ok tt, st1) /\
    fst (Model.getNextState 0%nat st1) =
      match fst (Model.getNextState 0%nat Example.withPeople) with
      | Ok S1 =>
          Meta.update Example.PersonMeta S1 (VArr [VNum 1])
                      (VObj [("name", VStr "c")])
      | Throw e => Throw e
      end.
Proof.
  apply (update_visible 0%nat Example.aliceFacade Example.PersonClass
           Example.PersonMeta Example.withPeople (VObj [("name", VStr "c")])
           Example.people); try reflexivity.
  intros E. discriminate E.
Defined.

(** [alice.name = 'c'] and the next state of [Person]. *)
Lemma plain_assignment_fold_witness :
  exists st1,
    Model.PlainAccessor_set VSession "id" "Person" 0%nat "name" (VStr "c")
      Example.withPeople = (Ok tt, st1) /\
    instances st1 = instances Example.withPeople /\
    fst (Model.getNextState 0%nat st1) =
      match fst (Model.getNextState 0%nat Example.withPeople) with
      | Ok S1 => Meta.update Example.PersonMeta S1 VUndefined VUndefined
      | Throw e => Throw e
      end.
Proof.
  apply (plain_assignment_fold 0%nat Example.aliceFacade Example.PersonClass
           Example.PersonMeta Example.withPeople "id" "name" (VStr "c")
           Example.people); try reflexivity; intros E; discriminate E.
Defined.


(** [Person.connect(5)] and then [Person.connect(session)]. *)
Lemma connect_rebinds_witness :
  Model.connect 0%nat VSession
    (snd (Model.connect 0%nat (VNum 5) (Example.emptyStore ∅)))
    = Model.connect 0%nat VSession (Example.emptyStore ∅) /\
  exists c',
    classes (snd (Model.connect 0%nat VSession (Example.emptyStore ∅))) !! 0%nat
      = Some c' /\
    _session c' = VSession /\ _meta c' = _meta Example.Person /\
    fields c' = fields Example.Person.
Proof.
  apply (connect_rebinds 0%nat (VNum 5) VSession Example.Person
           (Example.emptyStore ∅)).
  reflexivity.
Defined.

(** The facades of [alice] and [zoe], both of row 1. *)
Lemma equals_transitive_witness :
  fst (Model.equals 0%nat 0%nat Example.twoFacades) = Ok true.
Proof.
  apply (equals_transitive 0%nat 1%nat 0%nat Example.twoFacades); reflexivity.
Defined.

(** The through model of [Book.authors] has no through model. *)
Lemma ThroughModel_no_through_witness :
  Model.getManyToManyModels 2%nat Example.others =
    (Ok [], cached 2%nat Example.BookAuthors
              (Branch.meta (mkMetaOptions "Book_authors" None)) Example.others).
Proof.
  apply (ThroughModel_no_through 2%nat Example.others
           (cached 2%nat Example.BookAuthors
              (Branch.meta (mkMetaOptions "Book_authors" None)) Example.others)
           Example.BookAuthors
           (Branch.meta (mkMetaOptions "Book_authors" None))
           "Book" "Person" "authors"); reflexivity.
Defined.
